(** * Smart Quest System: reuse / synthesize pipeline

    A shallow embedding of [smart_quest_system.py]: the orchestrator
    [SmartQuestSystem], its five collaborators (the in-memory stand-ins
    [OpenSearchClient], [KendraClient], [StrandsAgentSystem],
    [DynamoDBClient], [RAGQuestGenerator]) and the properties of the
    pipeline they form.

    Conventions of the embedding.
    - A Python [str] is a [string] holding its UTF-8 bytes.  UTF-8 is
      self-synchronising, so [needle in hay] on code points is the byte
      substring test [str_in] on the encodings.
    - A Python [float] score is the rational its literal denotes.  Every
      score of the program is one of the literals 0.0, 0.3, 0.7, 0.8, 0.85,
      0.9, 0.95, 0.94, ...; distinct literals are distinct doubles in the
      same order, so comparisons agree.
    - A [dict] held by reference (a document's [metadata]) lives in a heap
      and is named by its location, so that aliases see one another's
      writes.
    - Effects are threaded through a state-and-exception monad [M] over the
      [World] (heap, index, store, wall clock). *)

From Stdlib Require Import QArith Ascii.
From stdpp Require Import gmap strings list fin_maps pretty sorting.

Local Open Scope string_scope.

(** ** Python values and string primitives *)

Module Py.

Definition nl : string := String (ascii_of_nat 10) "".

(** [needle in hay] *)
Fixpoint str_in (needle hay : string) : bool :=
  String.prefix needle hay ||
  match hay with
  | "" => false
  | String _ hay' => str_in needle hay'
  end.

Definition is_upper (c : ascii) : bool :=
  (65 <=? nat_of_ascii c)%nat && (nat_of_ascii c <=? 90)%nat.
Definition is_lower (c : ascii) : bool :=
  (97 <=? nat_of_ascii c)%nat && (nat_of_ascii c <=? 122)%nat.
Definition to_lower (c : ascii) : ascii :=
  if is_upper c then ascii_of_nat (nat_of_ascii c + 32) else c.
Definition to_upper (c : ascii) : ascii :=
  if is_lower c then ascii_of_nat (nat_of_ascii c - 32) else c.

(** [s.lower()].  The ASCII letters are folded; the bytes of every other
    code point are kept.  Python also folds cased letters outside ASCII,
    none of which is, or lower-cases to, a Hangul syllable: for the Hangul
    keywords of this program [k in s.lower()] is decided alike. *)
Fixpoint lower (s : string) : string :=
  match s with
  | "" => ""
  | String c s' => String (to_lower c) (lower s')
  end.

(** [s.title()] on a string whose cased letters are all ASCII: the first
    letter of every run of cased letters in upper case, the others in lower
    case; every other byte is kept and ends the run.  Python also changes
    cased letters outside ASCII, which this function leaves alone; the
    program calls [title] on a category only, and every category is an
    ASCII literal. *)
Fixpoint title_from (in_word : bool) (s : string) : string :=
  match s with
  | "" => ""
  | String c s' =>
      let cased := is_upper c || is_lower c in
      String (if in_word then to_lower c else to_upper c) (title_from cased s')
  end.
Definition title (s : string) : string := title_from false s.

(** A byte [10xxxxxx] continues the code point begun before it. *)
Definition is_continuation (c : ascii) : bool :=
  (128 <=? nat_of_ascii c)%nat && (nat_of_ascii c <? 192)%nat.

(** [s[:n]]: the first [n] code points. *)
Fixpoint slice_to (n : nat) (s : string) : string :=
  match s with
  | "" => ""
  | String c s' =>
      if is_continuation c then String c (slice_to n s')
      else match n with
           | O => ""
           | S n' => String c (slice_to n' s')
           end
  end.

(** [sep.join(parts)] *)
Fixpoint join (sep : string) (parts : list string) : string :=
  match parts with
  | [] => ""
  | [p] => p
  | p :: rest => p +:+ sep +:+ join sep rest
  end.

(** [any(k in s for k in keywords)] *)
Definition any_in (keywords : list string) (s : string) : bool :=
  existsb (fun k => str_in k s) keywords.

(** [n] zeros. *)
Fixpoint zeros (n : nat) : string :=
  match n with
  | O => ""
  | S n' => String "0" (zeros n')
  end.

(** [s.zfill(width)] on a string of digits: zeros in front up to [width]
    characters, none when [s] is that long already. *)
Definition zfill (width : nat) (s : string) : string :=
  zeros (width - String.length s) +:+ s.

(** [%0<width>d]: the decimal digits of [n], zero-filled to [width]. *)
Definition digits (width n : nat) : string := zfill width (pretty n).

(** The values stored in the [metadata] dicts of this program.  A [Float]
    is a finite float, read as the rational it denotes. *)
Inductive value : Type :=
| Str (s : string)
| Float (q : Q)
| Int (z : Z)
| Bool (b : bool)
| StrList (l : list string).

(** The exceptions the program can meet; [str(e)] is [message]. *)
Record exn : Type := Exception { message : string }.

(** The first integer too large for a double: an [int] of this magnitude
    rounds to 2^1024, and its conversion to [float] raises. *)
Definition float_overflow : Z := (2 ^ 1024 - 2 ^ 970)%Z.

(** [f"{v:.3f}"] followed by a comparison with a float: the number read,
    or the exception the format raises.  The format converts an [int] to
    [float] and raises [OverflowError] beyond the double range; the
    comparison that follows is exact on the [int] itself. *)
Definition as_number (v : value) : exn + Q :=
  match v with
  | Float q => inr q
  | Int z =>
      if (Z.abs z <? float_overflow)%Z then inr (inject_Z z)
      else inl (Exception "int too large to convert to float")
  | Bool b => inr (if b then 1%Q else 0%Q)
  | Str _ => inl (Exception "Unknown format code 'f' for object of type 'str'")
  | StrList _ => inl (Exception "unsupported format string passed to list.__format__")
  end.

(** [datetime.now()] *)
Record datetime : Type := DateTime {
  year : nat; month : nat; day : nat;
  hour : nat; minute : nat; second : nat; microsecond : nat
}.

(** [dt.strftime('%Y%m%d_%H%M%S')]: the C library prints the year as it
    is (four digits for every year [datetime.now()] can read) and the other
    fields on two digits. *)
Definition strftime_compact (dt : datetime) : string :=
  pretty (year dt) +:+ digits 2 (month dt) +:+ digits 2 (day dt) +:+ "_" +:+
  digits 2 (hour dt) +:+ digits 2 (minute dt) +:+ digits 2 (second dt).

(** [dt.isoformat()] of a naive datetime: [YYYY-MM-DDTHH:MM:SS], followed
    by [.ffffff] when the microseconds are not zero. *)
Definition isoformat (dt : datetime) : string :=
  digits 4 (year dt) +:+ "-" +:+ digits 2 (month dt) +:+ "-" +:+ digits 2 (day dt) +:+
  "T" +:+ digits 2 (hour dt) +:+ ":" +:+ digits 2 (minute dt) +:+ ":" +:+
  digits 2 (second dt) +:+
  match microsecond dt with
  | O => ""
  | us => "." +:+ digits 6 us
  end.

End Py.

(** ** Data classes *)

Record UserFeedback : Type := {
  fb_content : string;
  timestamp : string;
  user_id : option string;
  category_hint : option string
}.

(** [metadata] is the location of the document's dict in the heap. *)
Record ExpertDocument : Type := {
  document_id : string;
  topic : string;
  content : string;
  metadata : nat;
  quality_score : Q;
  created_at : string
}.

Record Quest : Type := {
  title : string;
  if_condition : string;
  then_action : string;
  estimated_time : string;
  difficulty : string;
  success_metric : string;
  rag_evidence : string
}.

(** The dicts returned by the trusted-source search. *)
Record TrustedSource : Type := {
  src_title : string;
  src_content : string;
  src_source : string;
  src_confidence : string
}.

(** ** The world and the monad of effects *)

(** Every dict held by reference lives in [heap]; [mock_documents] is the
    list of [OpenSearchClient], [mock_storage] the dict of [DynamoDBClient]
    (each item stored holds the six entries of the document, its [metadata]
    by reference); the [ticks]-th call of [datetime.now()] reads
    [clock ticks]. *)
Record World : Type := {
  heap : list (gmap string Py.value);
  mock_documents : list ExpertDocument;
  mock_storage : gmap string ExpertDocument;
  clock : nat -> Py.datetime;
  ticks : nat
}.

Definition with_heap (h : list (gmap string Py.value)) (w : World) : World :=
  {| heap := h; mock_documents := mock_documents w;
     mock_storage := mock_storage w; clock := clock w; ticks := ticks w |}.

Definition with_mock_documents (docs : list ExpertDocument) (w : World) : World :=
  {| heap := heap w; mock_documents := docs;
     mock_storage := mock_storage w; clock := clock w; ticks := ticks w |}.

Definition with_mock_storage (st : gmap string ExpertDocument) (w : World) : World :=
  {| heap := heap w; mock_documents := mock_documents w;
     mock_storage := st; clock := clock w; ticks := ticks w |}.

Definition with_ticks (n : nat) (w : World) : World :=
  {| heap := heap w; mock_documents := mock_documents w;
     mock_storage := mock_storage w; clock := clock w; ticks := n |}.

Inductive outcome (A : Type) : Type :=
| Return (a : A)
| Raise (e : Py.exn).
Arguments Return {A} a.
Arguments Raise {A} e.

Definition M (A : Type) : Type := World -> outcome A * World.

Definition ret {A} (a : A) : M A := fun w => (Return a, w).

Definition raise {A} (e : Py.exn) : M A := fun w => (Raise e, w).

Definition bind {A B} (m : M A) (k : A -> M B) : M B :=
  fun w =>
    match m w with
    | (Return a, w') => k a w'
    | (Raise e, w') => (Raise e, w')
    end.

(** [try: m except Exception as e: handler(e)]; what [m] wrote before it
    raised stays written. *)
Definition try_except {A} (m : M A) (handler : Py.exn -> M A) : M A :=
  fun w =>
    match m w with
    | (Return a, w') => (Return a, w')
    | (Raise e, w') => handler e w'
    end.

Notation "'do' x <- m ;; k" := (bind m (fun x => k))
  (at level 10, x name, m at level 99, k at level 200).

Definition get_heap : M (list (gmap string Py.value)) := fun w => (Return (heap w), w).

(** [datetime.now()] *)
Definition datetime_now : M Py.datetime :=
  fun w => (Return (clock w (ticks w)), with_ticks (S (ticks w)) w).

(** A dict display [{...}] makes a new dict. *)
Definition alloc (d : gmap string Py.value) : M nat :=
  fun w => (Return (length (heap w)), with_heap (heap w ++ [d]) w).

Definition deref (h : list (gmap string Py.value)) (l : nat) : gmap string Py.value :=
  default ∅ (h !! l).

(** [d.get(k, dflt)] *)
Definition dict_get (h : list (gmap string Py.value)) (l : nat) (k : string)
    (dflt : Py.value) : Py.value :=
  default dflt (deref h l !! k).

(** [d[k] = v] *)
Definition dict_set (h : list (gmap string Py.value)) (l : nat) (k : string)
    (v : Py.value) : list (gmap string Py.value) :=
  alter (<[k := v]>) l h.

(** ** The collaborators as the orchestrator sees them *)

Record OpenSearchAPI : Type := {
  find_similar_documents : string -> Q -> nat -> M (list ExpertDocument);
  index_document : ExpertDocument -> M unit
}.

Record KendraAPI : Type := {
  search_trusted_sources : string -> string -> M (list TrustedSource)
}.

Record AgentAPI : Type := {
  create_expert_document : UserFeedback -> list TrustedSource -> M ExpertDocument
}.

Record DynamoDBAPI : Type := {
  save_expert_document : ExpertDocument -> M string
}.

Record RAGAPI : Type := {
  generate_from_documents : list ExpertDocument -> UserFeedback -> M (list Quest)
}.

(** ** OpenSearchClient (in-memory) *)

Module OpenSearchClient.

Definition neck_content : string :=
  "목 통증 완화를 위한 전문가 가이드: 물리치료사 3명이 협업하여 작성한 종합 가이드입니다. 목을 좌우로 천천히 돌리는 스트레칭을 15초씩 3-5회 반복하면 효과적입니다.".

Definition budget_content : string :=
  "20대 직장인을 위한 예산 관리 전문가 가이드: 재정 전문가 3명이 협업하여 작성했습니다. 50/30/20 규칙을 활용하여 수입의 50%는 필수지출, 30%는 선택지출, 20%는 저축으로 배분하세요.".

Definition acne_content : string :=
  "여드름 관리를 위한 피부과 전문의 가이드: 피부과 전문의와 화장품 연구원이 협업하여 작성했습니다. 순한 세안제로 하루 2회 세안하고, 살리실산 성분의 제품을 점진적으로 사용하세요.".

Definition _initialize_mock_data : M unit :=
  do m1 <- alloc (<["experts" := Py.StrList ["물리치료사"; "운동전문가"] ]>
                (<["quality_score" := Py.Float 0.95]> ∅)) ;;
  do m2 <- alloc (<["experts" := Py.StrList ["재정전문가"; "투자컨설턴트"] ]>
                (<["quality_score" := Py.Float 0.92]> ∅)) ;;
  do m3 <- alloc (<["experts" := Py.StrList ["피부과전문의"; "화장품연구원"] ]>
                (<["quality_score" := Py.Float 0.93]> ∅)) ;;
  fun w =>
    (Return tt,
     with_mock_documents
       [ {| document_id := "health_neck_001"; topic := "health";
            content := neck_content; metadata := m1;
            quality_score := 0.95; created_at := "2024-12-14T10:30:00Z" |};
         {| document_id := "finance_budget_001"; topic := "finance";
            content := budget_content; metadata := m2;
            quality_score := 0.92; created_at := "2024-12-14T09:15:00Z" |};
         {| document_id := "skincare_acne_001"; topic := "skincare";
            content := acne_content; metadata := m3;
            quality_score := 0.93; created_at := "2024-12-14T08:45:00Z" |} ] w).

Definition _calculate_mock_similarity (query content : string) : Q :=
  let query_lower := Py.lower query in
  let content_lower := Py.lower content in
  if Py.str_in "목" query_lower && Py.str_in "목" content_lower then 0.9
  else if Py.str_in "통증" query_lower && Py.str_in "통증" content_lower then 0.85
  else if Py.str_in "운동" query_lower &&
          (Py.str_in "운동" content_lower || Py.str_in "스트레칭" content_lower) then 0.8
  else if Py.str_in "예산" query_lower && Py.str_in "예산" content_lower then 0.9
  else if Py.str_in "돈" query_lower &&
          (Py.str_in "예산" content_lower || Py.str_in "재정" content_lower) then 0.85
  else if Py.str_in "피부" query_lower && Py.str_in "피부" content_lower then 0.9
  else if Py.str_in "여드름" query_lower && Py.str_in "여드름" content_lower then 0.95
  else 0.3.

(** The loop over [self.mock_documents]: a document at or above the
    threshold has the score written into its metadata and joins the
    results. *)
Fixpoint scan (query : string) (threshold : Q) (h : list (gmap string Py.value))
    (docs : list ExpertDocument) : list (gmap string Py.value) * list ExpertDocument :=
  match docs with
  | [] => (h, [])
  | doc :: rest =>
      let similarity := _calculate_mock_similarity query (content doc) in
      if Qle_bool threshold similarity then
        let '(h', results) :=
          scan query threshold
            (dict_set h (metadata doc) "similarity_score" (Py.Float similarity)) rest in
        (h', doc :: results)
      else scan query threshold h rest
  end.

(** The sort key [x.metadata['similarity_score']]; the entry was written by
    the loop just before. *)
Definition sort_key (h : list (gmap string Py.value)) (doc : ExpertDocument) : Q :=
  match dict_get h (metadata doc) "similarity_score" (Py.Float 0) with
  | Py.Float q => q
  | _ => 0
  end.

(** [results.sort(key=..., reverse=True)]: descending and stable, equal
    keys keep the order they had. *)
Fixpoint insert_desc (key : ExpertDocument -> Q) (x : ExpertDocument)
    (sorted : list ExpertDocument) : list ExpertDocument :=
  match sorted with
  | [] => [x]
  | y :: rest =>
      if Qle_bool (key y) (key x) then x :: y :: rest
      else y :: insert_desc key x rest
  end.

Definition sort_desc (key : ExpertDocument -> Q) (l : list ExpertDocument)
    : list ExpertDocument :=
  foldr (insert_desc key) [] l.

Definition find_similar_documents (query : string) (threshold : Q) (limit : nat)
    : M (list ExpertDocument) :=
  fun w =>
    let '(h, results) := scan query threshold (heap w) (mock_documents w) in
    (Return (take limit (sort_desc (sort_key h) results)), with_heap h w).

Definition index_document (document : ExpertDocument) : M unit :=
  fun w => (Return tt, with_mock_documents (mock_documents w ++ [document]) w).

End OpenSearchClient.

Definition mock_opensearch : OpenSearchAPI :=
  {| find_similar_documents := OpenSearchClient.find_similar_documents;
     index_document := OpenSearchClient.index_document |}.

(** ** KendraClient (canned trusted sources) *)

Module KendraClient.

Definition mock_sources : gmap string (list TrustedSource) :=
  <["health" :=
      [ {| src_title := "Neck Pain Relief Exercises - NIH Guidelines";
           src_content := "The National Institute of Health recommends gentle neck rotations held for 15 seconds, performed 3-5 times daily for optimal neck pain relief.";
           src_source := "https://www.nih.gov/neck-pain-relief";
           src_confidence := "VERY_HIGH" |};
        {| src_title := "Physical Therapy for Cervical Pain - Mayo Clinic";
           src_content := "Mayo Clinic research shows that progressive neck strengthening exercises significantly reduce chronic neck pain when performed consistently.";
           src_source := "https://www.mayoclinic.org/neck-exercises";
           src_confidence := "HIGH" |} ]]>
  (<["finance" :=
      [ {| src_title := "Budget Planning Guidelines - Federal Reserve";
           src_content := "Federal Reserve economic data supports the 50/30/20 budgeting rule for young adults: 50% needs, 30% wants, 20% savings.";
           src_source := "https://www.federalreserve.gov/budget-guidelines";
           src_confidence := "VERY_HIGH" |};
        {| src_title := "Young Adult Financial Planning - SEC";
           src_content := "SEC guidelines recommend starting emergency fund building and retirement savings in your 20s for long-term financial stability.";
           src_source := "https://www.sec.gov/young-adult-finance";
           src_confidence := "HIGH" |} ]]>
  (<["skincare" :=
      [ {| src_title := "Acne Treatment Guidelines - FDA";
           src_content := "FDA approved acne treatments include salicylic acid and benzoyl peroxide. Start with lower concentrations to avoid irritation.";
           src_source := "https://www.fda.gov/acne-treatment";
           src_confidence := "VERY_HIGH" |};
        {| src_title := "Dermatological Care - American Academy of Dermatology";
           src_content := "AAD recommends gentle cleansing twice daily and gradual introduction of active ingredients for effective acne management.";
           src_source := "https://www.aad.org/acne-care";
           src_confidence := "HIGH" |} ]]> ∅)).

Definition search_trusted_sources (query category : string) : M (list TrustedSource) :=
  ret (default [] (mock_sources !! category)).

End KendraClient.

Definition mock_kendra : KendraAPI :=
  {| search_trusted_sources := KendraClient.search_trusted_sources |}.

(** ** StrandsAgentSystem (the document synthesizer) *)

Module StrandsAgentSystem.

Definition _determine_category (content : string) : string :=
  let content_lower := Py.lower content in
  if Py.any_in ["목"; "어깨"; "허리"; "통증"; "건강"; "운동"; "스트레칭"] content_lower
  then "health"
  else if Py.any_in ["돈"; "예산"; "투자"; "저축"; "재정"; "금융"] content_lower
  then "finance"
  else if Py.any_in ["피부"; "스킨케어"; "화장품"; "여드름"] content_lower
  then "skincare"
  else "health".

Definition _generate_mock_expert_content (user_feedback : UserFeedback)
    (trusted_sources : list TrustedSource) (category : string) : string :=
  let sources_summary :=
    Py.join Py.nl
      (map (fun source =>
              "- " +:+ src_title source +:+ ": " +:+
              Py.slice_to 100 (src_content source) +:+ "...")
           trusted_sources) in
  Py.join Py.nl
    [ "# " +:+ Py.title category +:+ " 전문가 협업 문서";
      "";
      "## 사용자 요청 분석";
      fb_content user_feedback;
      "";
      "## 신뢰할 수 있는 최신 정보";
      sources_summary;
      "";
      "## 전문가 팀 협업 결과";
      "";
      "### 1. 수석 전문가 분석";
      "사용자의 요청을 종합적으로 분석한 결과, 다음과 같은 접근이 필요합니다:";
      "- 과학적 근거 기반의 안전한 방법";
      "- 개인의 상황에 맞는 맞춤형 솔루션";
      "- 점진적이고 지속 가능한 접근";
      "";
      "### 2. 실무 전문가 권고사항";
      "구체적인 실행 방법:";
      "- 단계별 실행 계획";
      "- 주의사항 및 안전 수칙";
      "- 효과 측정 방법";
      "";
      "### 3. 검증 전문가 의견";
      "안전성 및 효과성 검토:";
      "- 과학적 근거 확인";
      "- 부작용 위험 평가";
      "- 개선 및 수정 사항";
      "";
      "## 최종 권고사항";
      "전문가 팀의 합의된 최종 권고사항으로, 사용자가 안전하고 효과적으로 실행할 수 있는 방법을 제시합니다.";
      "";
      "*본 문서는 " +:+ pretty (length trusted_sources) +:+
        "개의 신뢰할 수 있는 소스와 전문가 협업을 통해 생성되었습니다.*" ].

Definition create_expert_document (user_feedback : UserFeedback)
    (trusted_sources : list TrustedSource) : M ExpertDocument :=
  let category := _determine_category (fb_content user_feedback) in
  let mock_expert_content :=
    _generate_mock_expert_content user_feedback trusted_sources category in
  do stamp <- datetime_now ;;
  do meta <- alloc
      (<["user_request" := Py.Str (fb_content user_feedback)]>
      (<["trusted_sources_count" := Py.Int (Z.of_nat (length trusted_sources))]>
      (<["expert_collaboration" := Py.Bool true]>
      (<["generated_by" := Py.Str "mock_strands_agent"]> ∅)))) ;;
  do created <- datetime_now ;;
  ret {| document_id := category +:+ "_" +:+ Py.strftime_compact stamp;
         topic := category;
         content := mock_expert_content;
         metadata := meta;
         quality_score := 0.94;
         created_at := Py.isoformat created |}.

End StrandsAgentSystem.

Definition mock_agent : AgentAPI :=
  {| create_expert_document := StrandsAgentSystem.create_expert_document |}.

(** ** DynamoDBClient (in-memory store) *)

Module DynamoDBClient.

Definition save_expert_document (document : ExpertDocument) : M string :=
  fun w =>
    (Return (document_id document),
     with_mock_storage (<[document_id document := document]> (mock_storage w)) w).

End DynamoDBClient.

Definition mock_dynamodb : DynamoDBAPI :=
  {| save_expert_document := DynamoDBClient.save_expert_document |}.

(** ** RAGQuestGenerator *)

Module RAGQuestGenerator.

Definition quest_templates : gmap string (list Quest) :=
  <["health" :=
      [ {| title := "아침 목 깨우기";
           if_condition := "매일 아침 기상 직후";
           then_action := "목을 좌우로 천천히 3회씩 돌리고 턱 당기기 10초 유지";
           estimated_time := "3분";
           difficulty := "쉬움";
           success_metric := "일주일에 5일 이상 실행";
           rag_evidence := "물리치료학회 가이드라인에 따른 15초 유지 권장사항" |};
        {| title := "업무 중 목 휴식";
           if_condition := "컴퓨터 작업 2시간마다";
           then_action := "의자에서 목 스트레칭과 어깨 으쓱하기 각 10초씩";
           estimated_time := "5분";
           difficulty := "보통";
           success_metric := "하루 3회 이상 실행";
           rag_evidence := "재활의학과 전문의 권고사항" |};
        {| title := "저녁 목 이완 루틴";
           if_condition := "잠자리에 들기 30분 전";
           then_action := "목 마사지와 전체 목 스트레칭 루틴 완주";
           estimated_time := "10분";
           difficulty := "어려움";
           success_metric := "주 4회 이상 지속";
           rag_evidence := "종합 목 관리 전문가 협업 문서" |} ]]>
  (<["finance" :=
      [ {| title := "가계부 작성 시작";
           if_condition := "매일 저녁 식사 후";
           then_action := "하루 지출 내역을 앱에 기록하고 카테고리별 분류";
           estimated_time := "5분";
           difficulty := "쉬움";
           success_metric := "2주 연속 매일 기록";
           rag_evidence := "금융감독원 가계재정 관리 가이드" |};
        {| title := "50/30/20 예산 계획";
           if_condition := "매월 첫째 주 주말";
           then_action := "월 수입 기준 예산을 50/30/20으로 계획하고 목표 설정";
           estimated_time := "30분";
           difficulty := "보통";
           success_metric := "3개월 연속 예산 달성도 80% 이상";
           rag_evidence := "연방준비제도 경제 데이터 기반 권장사항" |};
        {| title := "응급자금 만들기";
           if_condition := "매월 급여일 다음날";
           then_action := "월 수입의 10%를 별도 적금에 자동이체 설정";
           estimated_time := "15분";
           difficulty := "어려움";
           success_metric := "6개월 분 생활비 적립 달성";
           rag_evidence := "SEC 젊은 성인 재정계획 가이드라인" |} ]]>
  (<["skincare" :=
      [ {| title := "기본 세안 루틴 정착";
           if_condition := "아침과 저녁 세안 시";
           then_action := "순한 세안제로 미지근한 물에 30초간 부드럽게 세안";
           estimated_time := "3분";
           difficulty := "쉬움";
           success_metric := "2주간 하루도 빠짐없이 실행";
           rag_evidence := "미국피부과학회 기본 세안 권고사항" |};
        {| title := "살리실산 제품 도입";
           if_condition := "저녁 세안 후 주 2회";
           then_action := "0.5% 살리실산 제품을 문제 부위에만 점 발라 적응시키기";
           estimated_time := "5분";
           difficulty := "보통";
           success_metric := "4주간 부작용 없이 사용";
           rag_evidence := "FDA 승인 여드름 치료 성분 가이드라인" |};
        {| title := "종합 여드름 관리 루틴";
           if_condition := "매일 아침, 저녁";
           then_action := "세안 → 토너 → 살리실산 제품 → 보습제 순서로 완전한 루틴";
           estimated_time := "10분";
           difficulty := "어려움";
           success_metric := "3개월 연속 피부 상태 개선";
           rag_evidence := "피부과 전문의 협업 종합 관리 프로토콜" |} ]]> ∅)).

Definition generic_quest : Quest :=
  {| title := "기본 실천하기";
     if_condition := "적절한 시간에";
     then_action := "관련 기본 행동 실행";
     estimated_time := "5분";
     difficulty := "쉬움";
     success_metric := "꾸준한 실행";
     rag_evidence := "전문가 기본 권고사항" |}.

Definition _generate_mock_quests (category user_content : string) : list Quest :=
  default [generic_quest] (quest_templates !! category).

(** The value returned is the list under the key ["quests"]. *)
Definition generate_from_documents (documents : list ExpertDocument)
    (user_feedback : UserFeedback) : M (list Quest) :=
  match documents with
  | [] => ret []
  | primary_doc :: _ =>
      let category := topic primary_doc in
      ret (_generate_mock_quests category (fb_content user_feedback))
  end.

End RAGQuestGenerator.

Definition mock_rag : RAGAPI :=
  {| generate_from_documents := RAGQuestGenerator.generate_from_documents |}.

(** ** SmartQuestSystem (the orchestrator) *)

(** The dict returned by [process_user_feedback]: one constructor per shape
    of the dict, a key that may be absent as an [option]. *)
Inductive PipelineResult : Type :=
| Failure (error : string) (fallback_quest : option (list Quest))
| ExistingDocuments (documents_used : nat) (quests : list Quest)
    (processing_time : string) (similarity_scores : list Py.value)
| NewExpertDocument (new_document_id : string) (expert_document : ExpertDocument)
    (quests : list Quest) (processing_time : string) (trusted_sources_count : nat).

Definition success (r : PipelineResult) : bool :=
  match r with
  | Failure _ _ => false
  | _ => true
  end.

Definition method (r : PipelineResult) : option string :=
  match r with
  | Failure _ _ => None
  | ExistingDocuments _ _ _ _ => Some "existing_documents"
  | NewExpertDocument _ _ _ _ _ => Some "new_expert_document"
  end.

Definition result_error (r : PipelineResult) : option string :=
  match r with
  | Failure e _ => Some e
  | _ => None
  end.

Definition result_fallback_quest (r : PipelineResult) : option (list Quest) :=
  match r with
  | Failure _ fq => fq
  | _ => None
  end.

Definition result_expert_document (r : PipelineResult) : option ExpertDocument :=
  match r with
  | NewExpertDocument _ doc _ _ _ => Some doc
  | _ => None
  end.

Definition result_quests (r : PipelineResult) : option (list Quest) :=
  match r with
  | Failure _ _ => None
  | ExistingDocuments _ qs _ _ => Some qs
  | NewExpertDocument _ _ qs _ _ => Some qs
  end.

Record SmartQuestSystem : Type := {
  system_ready : bool;
  opensearch_client : OpenSearchAPI;
  kendra_client : KendraAPI;
  agent_system : AgentAPI;
  dynamodb_client : DynamoDBAPI;
  rag_generator : RAGAPI
}.

Module SmartQuestSystem.

Definition _determine_category (content : string) : string :=
  let content_lower := Py.lower content in
  let health_keywords := ["목"; "어깨"; "허리"; "통증"; "건강"; "운동"; "스트레칭"; "몸"] in
  let finance_keywords := ["돈"; "예산"; "투자"; "저축"; "재정"; "금융"; "주식"; "펀드"] in
  let skincare_keywords := ["피부"; "스킨케어"; "화장품"; "세안"; "로션"; "크림"; "여드름"] in
  if Py.any_in health_keywords content_lower then "health"
  else if Py.any_in finance_keywords content_lower then "finance"
  else if Py.any_in skincare_keywords content_lower then "skincare"
  else "health".

Definition _create_fallback_quest (feedback : UserFeedback) : list Quest :=
  let category := _determine_category (fb_content feedback) in
  [ {| title := "기본 " +:+ category +:+ " 실천하기";
       if_condition := "하루 중 적절한 시간에";
       then_action := category +:+ " 관련 기본 행동 실행";
       estimated_time := "10분";
       difficulty := "쉬움";
       success_metric := "일일 실행 여부";
       rag_evidence := "기본 권장사항" |} ].

(** [True] is the reuse decision, [False] the synthesize decision.  The
    score is formatted with [.3f] before it is compared, which raises on a
    value that is not a number. *)
Definition _evaluate_similarity (similar_docs : list ExpertDocument)
    (feedback : UserFeedback) : M bool :=
  match similar_docs with
  | [] => ret false
  | best_match :: _ =>
      do h <- get_heap ;;
      match Py.as_number
              (dict_get h (metadata best_match) "similarity_score" (Py.Float 0.0)) with
      | inl e => raise e
      | inr similarity_score =>
          if Qle_bool 0.85 similarity_score then ret true
          else if Qle_bool 0.70 similarity_score
               then ret (2 <=? length similar_docs)%nat
               else ret false
      end
  end.

Definition _create_new_expert_document_and_quest (self : SmartQuestSystem)
    (feedback : UserFeedback) : M PipelineResult :=
  try_except
    (do trusted_sources <-
        search_trusted_sources (kendra_client self) (fb_content feedback)
          (_determine_category (fb_content feedback)) ;;
     do expert_document <-
        create_expert_document (agent_system self) feedback trusted_sources ;;
     do document_id <- save_expert_document (dynamodb_client self) expert_document ;;
     do _u <- index_document (opensearch_client self) expert_document ;;
     do quest_result <-
        generate_from_documents (rag_generator self) [expert_document] feedback ;;
     do now <- datetime_now ;;
     ret (NewExpertDocument document_id expert_document quest_result
            (Py.isoformat now) (length trusted_sources)))
    (fun e =>
       ret (Failure (Py.message e) (Some (_create_fallback_quest feedback)))).

Definition _generate_quest_from_existing (self : SmartQuestSystem)
    (similar_docs : list ExpertDocument) (feedback : UserFeedback) : M PipelineResult :=
  try_except
    (do result <- generate_from_documents (rag_generator self) similar_docs feedback ;;
     do now <- datetime_now ;;
     do h <- get_heap ;;
     ret (ExistingDocuments (length similar_docs) result (Py.isoformat now)
            (map (fun doc => dict_get h (metadata doc) "similarity_score" (Py.Int 0))
                 similar_docs)))
    (fun e => _create_new_expert_document_and_quest self feedback).

Definition process_user_feedback (self : SmartQuestSystem) (feedback : UserFeedback)
    : M PipelineResult :=
  if negb (system_ready self) then
    ret (Failure "시스템이 준비되지 않았습니다." None)
  else
    try_except
      (do similar_docs <-
          find_similar_documents (opensearch_client self) (fb_content feedback) 0.7 5 ;;
       do sufficient_match <- _evaluate_similarity similar_docs feedback ;;
       if sufficient_match : bool
       then _generate_quest_from_existing self similar_docs feedback
       else _create_new_expert_document_and_quest self feedback)
      (fun e =>
         ret (Failure (Py.message e) (Some (_create_fallback_quest feedback)))).

End SmartQuestSystem.

(** ** The system as shipped *)

(** [SmartQuestSystem()] with the five in-memory collaborators; none of
    their constructors raises, so the system is ready. *)
Definition shipped : SmartQuestSystem :=
  {| system_ready := true;
     opensearch_client := mock_opensearch;
     kendra_client := mock_kendra;
     agent_system := mock_agent;
     dynamodb_client := mock_dynamodb;
     rag_generator := mock_rag |}.

Definition empty_world (clk : nat -> Py.datetime) : World :=
  {| heap := []; mock_documents := []; mock_storage := ∅; clock := clk; ticks := 0 |}.

(** The world after the constructors: the index holds its three seeded
    documents, the store is empty. *)
Definition initial_world (clk : nat -> Py.datetime) : World :=
  snd (OpenSearchClient._initialize_mock_data (empty_world clk)).

(** The worlds the shipped system is in after any sequence of requests. *)
Inductive reachable : World -> Prop :=
| reachable_initial clk : reachable (initial_world clk)
| reachable_process w feedback :
    reachable w ->
    reachable (snd (SmartQuestSystem.process_user_feedback shipped feedback w)).

(** ** Vocabulary of the properties *)

Definition feedback_of (text : string) : UserFeedback :=
  {| fb_content := text; timestamp := "2024-12-14T10:30:00";
     user_id := Some "test_user"; category_hint := None |}.

(** A wall clock that advances one second per reading. *)
Definition sample_clock (n : nat) : Py.datetime :=
  Py.DateTime 2024 12 14 10 30 n 0.

(** The categories that have a quest template. *)
Definition known_category (category : string) : bool :=
  bool_decide (category ∈ ["health"; "finance"; "skincare"]).

(** The score a search left on a document. *)
Definition annotation (w : World) (doc : ExpertDocument) : Py.value :=
  dict_get (heap w) (metadata doc) "similarity_score" (Py.Float 0.0).

(** [doc] scores at or above [threshold] against [query]. *)
Definition passes (query : string) (threshold : Q) (doc : ExpertDocument) : bool :=
  Qle_bool threshold (OpenSearchClient._calculate_mock_similarity query (content doc)).

(** The write the search makes on a document that passes. *)
Definition annotate (query : string) (h : list (gmap string Py.value))
    (doc : ExpertDocument) : list (gmap string Py.value) :=
  dict_set h (metadata doc) "similarity_score"
    (Py.Float (OpenSearchClient._calculate_mock_similarity query (content doc))).

(** A system whose construction failed: same collaborators, not ready. *)
Definition not_ready (self : SmartQuestSystem) : SmartQuestSystem :=
  {| system_ready := false;
     opensearch_client := opensearch_client self;
     kendra_client := kendra_client self;
     agent_system := agent_system self;
     dynamodb_client := dynamodb_client self;
     rag_generator := rag_generator self |}.

Definition with_rag_generator (rag : RAGAPI) (self : SmartQuestSystem) : SmartQuestSystem :=
  {| system_ready := system_ready self;
     opensearch_client := opensearch_client self;
     kendra_client := kendra_client self;
     agent_system := agent_system self;
     dynamodb_client := dynamodb_client self;
     rag_generator := rag |}.

Definition with_opensearch_client (os : OpenSearchAPI) (self : SmartQuestSystem)
    : SmartQuestSystem :=
  {| system_ready := system_ready self;
     opensearch_client := os;
     kendra_client := kendra_client self;
     agent_system := agent_system self;
     dynamodb_client := dynamodb_client self;
     rag_generator := rag_generator self |}.

(** A quest generator whose backend times out on the seeded neck-pain
    document and answers as the in-memory one on every other input. *)
Definition timing_out_rag : RAGAPI :=
  {| generate_from_documents := fun documents user_feedback =>
       match documents with
       | primary_doc :: _ =>
           if String.eqb (document_id primary_doc) "health_neck_001"
           then raise (Py.Exception "Read timeout on endpoint URL")
           else RAGQuestGenerator.generate_from_documents documents user_feedback
       | [] => RAGQuestGenerator.generate_from_documents documents user_feedback
       end |}.

(** [ExpertDocument(document_id=..., topic=..., content=..., metadata={},
    quality_score=0.9, created_at="")]: a document made by a caller. *)
Definition new_document (id category body : string) : M ExpertDocument :=
  do meta <- alloc ∅ ;;
  ret {| document_id := id; topic := category; content := body; metadata := meta;
         quality_score := 0.9; created_at := "" |}.

(** The number of searchable entries that carry the identifier [id]. *)
Definition entries_for (id : string) (w : World) : nat :=
  length (filter (λ d, document_id d = id) (mock_documents w)).

(** The identifiers the index holds. *)
Definition index_ids (w : World) : gset string :=
  list_to_set (map document_id (mock_documents w)).

(** The identifiers of the seeded corpus. *)
Definition seed_ids : gset string :=
  {[ "health_neck_001"; "finance_budget_001"; "skincare_acne_001" ]}.

(** A search backend that still answers queries but refuses to index. *)
Definition read_only_opensearch : OpenSearchAPI :=
  {| find_similar_documents := OpenSearchClient.find_similar_documents;
     index_document := fun _ => raise (Py.Exception "index is read-only") |}.

(** The keywords of the orchestrator's classifier, all categories. *)
Definition orchestrator_keywords : list string :=
  ["목"; "어깨"; "허리"; "통증"; "건강"; "운동"; "스트레칭"; "몸";
   "돈"; "예산"; "투자"; "저축"; "재정"; "금융"; "주식"; "펀드";
   "피부"; "스킨케어"; "화장품"; "세안"; "로션"; "크림"; "여드름"].

(** ** Scenarios

    Concrete runs of the program, written in its monad and observed
    through what they return. *)

(** What a computation returned, if it did not raise. *)
Definition returned {A} (r : outcome A * World) : option A :=
  match fst r with
  | Return a => Some a
  | Raise _ => None
  end.

(** The identifier of every indexed document with the score, if any, that
    its metadata holds. *)
Definition scores_on_index (w : World) : list (string * option Py.value) :=
  map (fun d => (document_id d, deref (heap w) (metadata d) !! "similarity_score"))
      (mock_documents w).

(** The same through the items of the store. *)
Definition scores_on_store (w : World) : list (string * option Py.value) :=
  map (fun kv => (fst kv, deref (heap w) (metadata (snd kv)) !! "similarity_score"))
      (map_to_list (mock_storage w)).

(** A caller makes a document, saves it, reindexes it and searches for its
    body: the self-score of the body, and what the search returns with the
    scores it left. *)
Definition save_reindex_search (id category body : string)
    : M (Q * list (string * Py.value)) :=
  do doc <- new_document id category body ;;
  do _id <- DynamoDBClient.save_expert_document doc ;;
  do _u <- OpenSearchClient.index_document doc ;;
  do found <- OpenSearchClient.find_similar_documents (content doc) 0.7 5 ;;
  do h <- get_heap ;;
  ret (OpenSearchClient._calculate_mock_similarity (content doc) (content doc),
       map (fun d => (document_id d,
                      dict_get h (metadata d) "similarity_score" (Py.Float 0.0)))
           found).

(** A caller makes a document, reindexes it twice and searches for "목":
    the identifiers returned. *)
Definition reindex_twice_search (id category body : string) : M (list string) :=
  do doc <- new_document id category body ;;
  do _u <- OpenSearchClient.index_document doc ;;
  do _v <- OpenSearchClient.index_document doc ;;
  do found <- OpenSearchClient.find_similar_documents "목" 0.7 5 ;;
  ret (map document_id found).

(** The first three steps of a request on the reuse path: search, decision,
    and whether the generator [rag] raised on the documents found. *)
Definition reuse_steps (rag : RAGAPI) (feedback : UserFeedback)
    : M (list string * bool * option string) :=
  do docs <- OpenSearchClient.find_similar_documents (fb_content feedback) 0.7 5 ;;
  do reuse <- SmartQuestSystem._evaluate_similarity docs feedback ;;
  do raised <- try_except
      (do _q <- generate_from_documents rag docs feedback ;; ret None)
      (fun e => ret (Some (Py.message e))) ;;
  ret (map document_id docs, reuse, raised).

(** The world after one request to the shipped system on a topic the
    seeded corpus does not cover. *)
Definition world_after_one_synthesis : World :=
  snd (SmartQuestSystem.process_user_feedback shipped (feedback_of "주식 투자 방법")
         (initial_world sample_clock)).

(** The documents at or above the threshold, in index order. *)
Definition candidates (query : string) (threshold : Q) (w : World) : list ExpertDocument :=
  filter (λ d, passes query threshold d = true) (mock_documents w).

(** The number of documents of a list that carry the identifier [id]. *)
Definition hits_for (id : string) (docs : list ExpertDocument) : nat :=
  length (filter (λ d, document_id d = id) docs).

Definition with_kendra_client (kendra : KendraAPI) (self : SmartQuestSystem)
    : SmartQuestSystem :=
  {| system_ready := system_ready self;
     opensearch_client := opensearch_client self;
     kendra_client := kendra;
     agent_system := agent_system self;
     dynamodb_client := dynamodb_client self;
     rag_generator := rag_generator self |}.

(** A trusted-source retriever whose backend cannot be reached. *)
Definition unreachable_kendra : KendraAPI :=
  {| search_trusted_sources := fun _ _ =>
       raise (Py.Exception "Could not connect to the endpoint URL") |}.

(** ** Vocabulary of the further properties *)

(** The keywords the similarity function looks for in a query. *)
Definition similarity_keywords : list string :=
  ["목"; "통증"; "운동"; "예산"; "돈"; "피부"; "여드름"].

(** Those of them that score 0.85 or more against a seeded document. *)
Definition strong_keywords : list string :=
  ["목"; "통증"; "예산"; "돈"; "피부"; "여드름"].

(** The keywords of the orchestrator's classifier that the synthesizer's
    classifier does not have. *)
Definition orchestrator_only_keywords : list string :=
  ["몸"; "주식"; "펀드"; "세안"; "로션"; "크림"].

(** The similarity of an indexed document to a query. *)
Definition score (query : string) (doc : ExpertDocument) : Q :=
  OpenSearchClient._calculate_mock_similarity query (content doc).

(** [a] comes before [b] in a list sorted by descending [key]. *)
Definition descending (key : ExpertDocument -> Q) (a b : ExpertDocument) : Prop :=
  (key b <= key a)%Q.

(** The three documents of [_initialize_mock_data]. *)
Definition seed_documents : list ExpertDocument :=
  mock_documents (initial_world sample_clock).

(** Every indexed document has a metadata dict of its own in the heap. *)
Definition own_metadata (w : World) : Prop :=
  NoDup (map metadata (mock_documents w)) /\
  Forall (fun d => metadata d < length (heap w)) (mock_documents w).

(** The document [create_expert_document] makes for [feedback] in the world
    [w], when the trusted sources are those of the in-memory retriever. *)
Definition synthesized_document (feedback : UserFeedback) (w : World) : ExpertDocument :=
  let category := StrandsAgentSystem._determine_category (fb_content feedback) in
  let sources :=
    default [] (KendraClient.mock_sources
                  !! SmartQuestSystem._determine_category (fb_content feedback)) in
  {| document_id := category +:+ "_" +:+ Py.strftime_compact (clock w (ticks w));
     topic := category;
     content := StrandsAgentSystem._generate_mock_expert_content feedback sources category;
     metadata := length (heap w);
     quality_score := 0.94;
     created_at := Py.isoformat (clock w (S (ticks w))) |}.

(** A wall clock that stands still. *)
Definition frozen_clock (n : nat) : Py.datetime :=
  Py.DateTime 2024 12 14 10 30 0 0.

(** The world a search for [query] at threshold 0.7 leaves, and the
    documents it returns with limit 5. *)
Definition searched (query : string) (w : World) : World :=
  with_heap (foldl (annotate query) (heap w) (candidates query 0.7 w)) w.

Definition found_for (query : string) (w : World) : list ExpertDocument :=
  take 5 (OpenSearchClient.sort_desc (OpenSearchClient.sort_key (heap (searched query w)))
            (candidates query 0.7 w)).

(** The scores a result of the reuse path reports. *)
Definition reported_scores (w : World) (docs : list ExpertDocument) : list Py.value :=
  map (fun doc => dict_get (heap w) (metadata doc) "similarity_score" (Py.Int 0)) docs.

(** [keyword in text.lower()] *)
Definition mentions (keyword text : string) : bool :=
  Py.str_in keyword (Py.lower text).

(** A search backend that returns the indexed documents as they are,
    without writing a score. *)
Definition unscored_opensearch : OpenSearchAPI :=
  {| find_similar_documents := fun _ _ limit w =>
       (Return (take limit (mock_documents w)), w);
     index_document := OpenSearchClient.index_document |}.

(** The keywords the similarity function looks for in a body. *)
Definition body_keywords : list string :=
  ["목"; "통증"; "운동"; "스트레칭"; "예산"; "재정"; "피부"; "여드름"].

(** A caller makes two documents over one metadata dict, indexes both and
    searches: the identifiers returned, each with the score the shared dict
    holds afterwards. *)
Definition shared_dict_search (body1 body2 query : string)
    : M (list (string * Py.value)) :=
  do meta <- alloc ∅ ;;
  do _u <- OpenSearchClient.index_document
      {| document_id := "shared_001"; topic := "health"; content := body1;
         metadata := meta; quality_score := 0.9; created_at := "" |} ;;
  do _v <- OpenSearchClient.index_document
      {| document_id := "shared_002"; topic := "health"; content := body2;
         metadata := meta; quality_score := 0.9; created_at := "" |} ;;
  do found <- OpenSearchClient.find_similar_documents query 0.7 5 ;;
  do h <- get_heap ;;
  ret (map (fun d => (document_id d,
                      dict_get h (metadata d) "similarity_score" (Py.Float 0.0)))
           found).

(** An ASCII decimal digit. *)
Definition is_digit (c : ascii) : bool :=
  let n := nat_of_ascii c in (48 <=? n)%nat && (n <=? 57)%nat.

(** The text starts with a decimal digit. *)
Definition head_digit (s : string) : bool :=
  match s with
  | EmptyString => false
  | String c _ => is_digit c
  end.

(** * Properties *)

(** ** The heap *)

Lemma deref_dict_set_eq h l k v :
  l < length h -> deref (dict_set h l k v) l = <[k := v]> (deref h l).
Proof.
  intros Hl. unfold deref, dict_set.
  rewrite list_lookup_alter_eq.
  destruct (lookup_lt_is_Some_2 h l Hl) as [m ->]. reflexivity.
Qed.

Lemma deref_dict_set_ne h l l' k v :
  l ≠ l' -> deref (dict_set h l k v) l' = deref h l'.
Proof.
  intros Hne. unfold deref, dict_set. by rewrite list_lookup_alter_ne.
Qed.

Lemma deref_dict_set_dangling h l k v :
  length h <= l -> dict_set h l k v = h.
Proof.
  intros Hl. unfold dict_set. apply list_eq. intros i.
  destruct (decide (l = i)) as [<- | Hne].
  - rewrite list_lookup_alter_eq, (lookup_ge_None_2 h l); [done | lia].
  - by rewrite list_lookup_alter_ne.
Qed.

Lemma length_dict_set h l k v : length (dict_set h l k v) = length h.
Proof. unfold dict_set. apply length_alter. Qed.

Lemma dict_set_other_key h l l' k k' v :
  k ≠ k' -> deref (dict_set h l k v) l' !! k' = deref h l' !! k'.
Proof.
  intros Hk. destruct (decide (l = l')) as [<- | Hne].
  - destruct (decide (l < length h)) as [Hl | Hl].
    + rewrite deref_dict_set_eq by done. by rewrite lookup_insert_ne.
    + rewrite deref_dict_set_dangling by lia. done.
  - by rewrite deref_dict_set_ne.
Qed.

(** ** The similarity search *)

Lemma scan_spec query threshold docs h :
  OpenSearchClient.scan query threshold h docs =
    (foldl (annotate query) h (filter (λ d, passes query threshold d = true) docs),
     filter (λ d, passes query threshold d = true) docs).
Proof.
  revert h. induction docs as [| doc rest IH]; intros h; [reflexivity |].
  cbn [OpenSearchClient.scan]. fold (passes query threshold doc).
  destruct (passes query threshold doc) eqn:Hp.
  - rewrite IH, filter_cons_True by done. reflexivity.
  - rewrite IH, filter_cons_False; [reflexivity | congruence].
Qed.

Lemma length_foldl_annotate query docs h :
  length (foldl (annotate query) h docs) = length h.
Proof.
  revert h. induction docs as [| d rest IH]; intros h; [reflexivity |].
  cbn [foldl]. rewrite IH. apply length_dict_set.
Qed.

Lemma insert_desc_perm key x l : OpenSearchClient.insert_desc key x l ≡ₚ x :: l.
Proof.
  induction l as [| y rest IH]; [reflexivity |].
  cbn [OpenSearchClient.insert_desc]. destruct (Qle_bool (key y) (key x)); [reflexivity |].
  rewrite IH. apply Permutation_swap.
Qed.

Lemma sort_desc_perm key l : OpenSearchClient.sort_desc key l ≡ₚ l.
Proof.
  induction l as [| x rest IH]; [reflexivity |].
  unfold OpenSearchClient.sort_desc in *. cbn [foldr].
  rewrite insert_desc_perm. by rewrite IH.
Qed.

(** What a search returns and the world it leaves. *)
Lemma find_similar_documents_spec query threshold limit w :
  OpenSearchClient.find_similar_documents query threshold limit w =
    let results := filter (λ d, passes query threshold d = true) (mock_documents w) in
    let h := foldl (annotate query) (heap w) results in
    (Return (take limit (OpenSearchClient.sort_desc (OpenSearchClient.sort_key h) results)),
     with_heap h w).
Proof.
  unfold OpenSearchClient.find_similar_documents. by rewrite scan_spec.
Qed.

Lemma found_is_indexed query threshold limit w docs w' doc :
  OpenSearchClient.find_similar_documents query threshold limit w = (Return docs, w') ->
  doc ∈ docs -> doc ∈ mock_documents w /\ passes query threshold doc = true.
Proof.
  rewrite find_similar_documents_spec. cbn zeta. intros [= <- <-] Hin.
  apply elem_of_take in Hin as (i & Hin & _).
  apply list_elem_of_lookup_2 in Hin. rewrite sort_desc_perm in Hin.
  apply list_elem_of_filter in Hin. tauto.
Qed.

(** A document that passed carries a float annotation afterwards. *)
Lemma annotate_float query h doc l :
  (exists s, dict_get h l "similarity_score" (Py.Float 0.0) = Py.Float s) ->
  exists s, dict_get (annotate query h doc) l "similarity_score" (Py.Float 0.0) = Py.Float s.
Proof.
  intros Hs. unfold annotate, dict_get.
  destruct (decide (metadata doc = l)) as [<- | Hne].
  - destruct (decide (metadata doc < length h)) as [Hl | Hl].
    + rewrite deref_dict_set_eq, lookup_insert_eq by done. eauto.
    + rewrite deref_dict_set_dangling by lia. exact Hs.
  - rewrite deref_dict_set_ne by done. exact Hs.
Qed.

Lemma annotate_self_float query h doc :
  exists s, dict_get (annotate query h doc) (metadata doc) "similarity_score" (Py.Float 0.0)
            = Py.Float s.
Proof.
  unfold annotate, dict_get.
  destruct (decide (metadata doc < length h)) as [Hl | Hl].
  - rewrite deref_dict_set_eq, lookup_insert_eq by done. eauto.
  - rewrite deref_dict_set_dangling by lia. unfold deref.
    rewrite (lookup_ge_None_2 h) by lia. cbn. rewrite lookup_empty. eauto.
Qed.

Lemma foldl_annotate_float query docs h l :
  (exists s, dict_get h l "similarity_score" (Py.Float 0.0) = Py.Float s) ->
  exists s, dict_get (foldl (annotate query) h docs) l "similarity_score" (Py.Float 0.0)
            = Py.Float s.
Proof.
  revert h. induction docs as [| d rest IH]; intros h Hs; [exact Hs |].
  cbn [foldl]. apply IH. by apply annotate_float.
Qed.

Lemma foldl_annotate_member_float query docs h doc :
  doc ∈ docs ->
  exists s, dict_get (foldl (annotate query) h docs) (metadata doc)
              "similarity_score" (Py.Float 0.0) = Py.Float s.
Proof.
  revert h. induction docs as [| d rest IH]; intros h Hin.
  - by apply elem_of_nil in Hin.
  - cbn [foldl]. apply elem_of_cons in Hin as [-> | Hin].
    + apply foldl_annotate_float, annotate_self_float.
    + by apply IH.
Qed.

Lemma found_is_annotated query threshold limit w docs w' doc :
  OpenSearchClient.find_similar_documents query threshold limit w = (Return docs, w') ->
  doc ∈ docs -> exists s, annotation w' doc = Py.Float s.
Proof.
  rewrite find_similar_documents_spec. cbn zeta. intros [= <- <-] Hin.
  apply elem_of_take in Hin as (i & Hin & _).
  apply list_elem_of_lookup_2 in Hin. rewrite sort_desc_perm in Hin.
  unfold annotation. cbn [heap with_heap].
  by apply foldl_annotate_member_float.
Qed.

(** ** The reuse / synthesize decision *)

(** The decision on a top score that is a number. *)
Lemma evaluate_similarity_number best rest feedback w s :
  Py.as_number (annotation w best) = inr s ->
  SmartQuestSystem._evaluate_similarity (best :: rest) feedback w =
    (Return (if Qle_bool 0.85 s then true
             else if Qle_bool 0.70 s then (2 <=? length (best :: rest))%nat
             else false), w).
Proof.
  intros Hs. unfold SmartQuestSystem._evaluate_similarity, bind, get_heap.
  fold (annotation w best). rewrite Hs.
  destruct (Qle_bool 0.85 s); [reflexivity |].
  destruct (Qle_bool 0.70 s); reflexivity.
Qed.

(** C1: on the list a similarity search returns, the evaluation always
    answers, and it answers reuse exactly when the top score is at least
    0.85, or lies in [0.70, 0.85) with at least two candidates; on an empty
    list and on a top score below 0.70 it answers synthesize. *)
Theorem C1_similarity_gate :
  forall query threshold limit feedback w,
  exists docs w',
    OpenSearchClient.find_similar_documents query threshold limit w = (Return docs, w') /\
    exists reuse,
      SmartQuestSystem._evaluate_similarity docs feedback w' = (Return reuse, w') /\
      match docs with
      | [] => reuse = false
      | best :: _ =>
          exists top,
            annotation w' best = Py.Float top /\
            (reuse = true <->
               (0.85 <= top)%Q \/
               ((0.70 <= top)%Q /\ (top < 0.85)%Q /\ 2 <= length docs)) /\
            ((top < 0.70)%Q -> reuse = false)
      end.
Proof.
  intros query threshold limit feedback w.
  destruct (OpenSearchClient.find_similar_documents query threshold limit w)
    as [r w'] eqn:Hfind.
  assert (exists docs, r = Return docs) as [docs ->].
  { rewrite find_similar_documents_spec in Hfind. cbn zeta in Hfind.
    injection Hfind as <- _. eauto. }
  exists docs, w'. split; [reflexivity |].
  destruct docs as [| best rest].
  { exists false. split; reflexivity. }
  destruct (found_is_annotated _ _ _ _ _ _ best Hfind) as [top Htop];
    [apply elem_of_cons; by left |].
  eexists. split.
  { apply evaluate_similarity_number with (s := top). by rewrite Htop. }
  exists top. split; [exact Htop |].
  destruct (Qle_bool 0.85 top) eqn:H85.
  - apply Qle_bool_iff in H85. split.
    + split; [intros _; by left | done].
    + intros Hlt. exfalso. apply (Qlt_not_le _ _ Hlt).
      eapply Qle_trans; [| exact H85]. by vm_compute.
  - assert (top < 0.85)%Q as Hlt85.
    { apply Qnot_le_lt. intros Hle. apply Qle_bool_iff in Hle. congruence. }
    destruct (Qle_bool 0.70 top) eqn:H70.
    + apply Qle_bool_iff in H70. split.
      * split.
        -- intros Hr. right. apply Nat.leb_le in Hr. done.
        -- intros [Hle | (_ & _ & Hn)].
           ++ exfalso. by apply (Qlt_not_le _ _ Hlt85).
           ++ by apply Nat.leb_le.
      * intros Hlt. exfalso. by apply (Qlt_not_le _ _ Hlt).
    + split; [| done]. split; [done |].
      intros [Hle | (Hle & _)].
      * exfalso. by apply (Qlt_not_le _ _ Hlt85).
      * apply Qle_bool_iff in Hle. congruence.
Qed.

(** ** The quest generator *)

Lemma quest_templates_known category :
  known_category category = true ->
  exists q1 q2 q3,
    RAGQuestGenerator.quest_templates !! category = Some [q1; q2; q3] /\
    map difficulty [q1; q2; q3] = ["쉬움"; "보통"; "어려움"].
Proof.
  unfold known_category. intros H. apply bool_decide_eq_true in H.
  repeat (apply elem_of_cons in H as [-> | H]); [| | | by apply elem_of_nil in H];
    do 3 eexists; (split; [vm_compute; reflexivity | reflexivity]).
Qed.

Lemma quest_templates_unknown category :
  known_category category = false ->
  RAGQuestGenerator.quest_templates !! category = None.
Proof.
  unfold known_category. intros H. apply bool_decide_eq_false in H.
  unfold RAGQuestGenerator.quest_templates.
  rewrite !lookup_insert_ne, lookup_empty; [done | | |];
    intros <-; apply H; set_solver.
Qed.

(** C3: [generate_from_documents] always returns, without touching the
    world: no quest for an empty document list; for a first document of a
    known category the three quests of its template, of difficulty easy,
    medium, hard in that order; for any other category the one generic easy
    quest.  The number of quests is hence 0 only for empty input, and
    otherwise 3 or 1. *)
Theorem C3_generate_from_documents_total :
  (forall feedback w,
      RAGQuestGenerator.generate_from_documents [] feedback w = (Return [], w)) /\
  (forall primary_doc others feedback w,
      exists quests,
        RAGQuestGenerator.generate_from_documents (primary_doc :: others) feedback w
          = (Return quests, w) /\
        if known_category (topic primary_doc)
        then length quests = 3%nat /\
             map difficulty quests = ["쉬움"; "보통"; "어려움"]
        else quests = [RAGQuestGenerator.generic_quest] /\
             map difficulty quests = ["쉬움"]).
Proof.
  split; [reflexivity |].
  intros doc others feedback w. cbn [RAGQuestGenerator.generate_from_documents].
  unfold ret, RAGQuestGenerator._generate_mock_quests.
  eexists; split; [reflexivity |].
  destruct (known_category (topic doc)) eqn:Hk.
  - destruct (quest_templates_known _ Hk) as (q1 & q2 & q3 & -> & Hd). by split.
  - rewrite (quest_templates_unknown _ Hk). by split.
Qed.

(** ** The two classifiers *)

(** C9: on the feedback "로션 추천해줘" the orchestrator's classifier answers
    skincare (its skincare keywords include "로션"), the synthesizer's
    classifier answers health (its list lacks the keyword and falls to the
    default); the shipped pipeline retrieves the skincare sources and tags
    the new document health. *)
Theorem C9_classifiers_differ :
  SmartQuestSystem._determine_category "로션 추천해줘" = "skincare" /\
  StrandsAgentSystem._determine_category "로션 추천해줘" = "health" /\
  option_map
    (fun doc => (topic doc, Py.str_in "Acne Treatment Guidelines - FDA" (content doc)))
    (returned (SmartQuestSystem.process_user_feedback shipped (feedback_of "로션 추천해줘")
                 (initial_world sample_clock))
     ≫= result_expert_document)
  = Some ("health", true).
Proof. repeat split; vm_compute; reflexivity. Qed.

(** ** Failure handling of the orchestrator *)

(** One step of a monadic computation: case on what the collaborator
    called first returns. *)
Ltac step_bind :=
  match goal with
  | |- context [bind ?m _ ?w] =>
      unfold bind at 1; destruct (m w) as [[?|?] ?]
  end.

(** The synthesize path always returns a result; a result that reports
    failure carries the message and the fallback quest. *)
Lemma create_new_returns self feedback w :
  exists res w',
    SmartQuestSystem._create_new_expert_document_and_quest self feedback w = (Return res, w') /\
    (success res = false ->
     exists e, res = Failure e (Some (SmartQuestSystem._create_fallback_quest feedback))).
Proof.
  unfold SmartQuestSystem._create_new_expert_document_and_quest, try_except.
  match goal with |- context [match ?body w with _ => _ end] =>
    destruct (body w) as [[res | e] w'] eqn:Hbody end.
  - exists res, w'. split; [reflexivity |]. intros Hfail.
    revert Hbody. repeat (step_bind; [| discriminate]).
    unfold ret. intros [= <- _]. discriminate.
  - do 2 eexists. split; [reflexivity |]. eauto.
Qed.

Lemma generate_from_existing_returns self docs feedback w :
  exists res w',
    SmartQuestSystem._generate_quest_from_existing self docs feedback w = (Return res, w') /\
    (success res = false ->
     exists e, res = Failure e (Some (SmartQuestSystem._create_fallback_quest feedback))).
Proof.
  unfold SmartQuestSystem._generate_quest_from_existing, try_except.
  match goal with |- context [match ?body w with _ => _ end] =>
    destruct (body w) as [[res | e] w'] eqn:Hbody end.
  - exists res, w'. split; [reflexivity |]. intros Hfail.
    revert Hbody. repeat (step_bind; [| discriminate]).
    unfold ret. intros [= <- _]. discriminate.
  - apply create_new_returns.
Qed.

(** A request on a ready system, past the search and the decision: the
    result is that of the path chosen, since both paths return. *)
Lemma process_ready self feedback w docs w1 reuse w2 :
  system_ready self = true ->
  find_similar_documents (opensearch_client self) (fb_content feedback) 0.7 5 w
    = (Return docs, w1) ->
  SmartQuestSystem._evaluate_similarity docs feedback w1 = (Return reuse, w2) ->
  SmartQuestSystem.process_user_feedback self feedback w =
    if reuse
    then SmartQuestSystem._generate_quest_from_existing self docs feedback w2
    else SmartQuestSystem._create_new_expert_document_and_quest self feedback w2.
Proof.
  intros Hready Hfind Heval.
  unfold SmartQuestSystem.process_user_feedback. rewrite Hready. cbn [negb].
  unfold try_except at 1. unfold bind at 1. rewrite Hfind.
  unfold bind at 1. rewrite Heval. destruct reuse.
  - by destruct (generate_from_existing_returns self docs feedback w2) as (? & ? & -> & _).
  - by destruct (create_new_returns self feedback w2) as (? & ? & -> & _).
Qed.

(** C2, as stated, fails on a system that is not ready: the early return
    reports failure with the error message alone, without a fallback quest
    set. *)
Lemma C2_not_ready_has_no_fallback :
  SmartQuestSystem.process_user_feedback (not_ready shipped) (feedback_of "목이 아파요")
    (initial_world sample_clock)
  = (Return (Failure "시스템이 준비되지 않았습니다." None), initial_world sample_clock) /\
  success (Failure "시스템이 준비되지 않았습니다." None) = false /\
  result_fallback_quest (Failure "시스템이 준비되지 않았습니다." None) = None.
Proof. repeat split. Qed.

(** C2 (amended): [process_user_feedback] always returns a result, whatever
    the collaborators do.  A result that reports failure carries an error
    message; when the system is ready it also carries the fallback quest
    set, which is computed from the feedback text alone and is exactly one
    quest, titled and worded with the category the orchestrator's
    classifier gives to the text; when the system is not ready it carries
    no fallback quest set. *)
Theorem C2_failure_carries_fallback :
  forall self feedback w,
  exists res w',
    SmartQuestSystem.process_user_feedback self feedback w = (Return res, w') /\
    (success res = false ->
       exists e,
         result_error res = Some e /\
         result_fallback_quest res =
           if system_ready self
           then Some (SmartQuestSystem._create_fallback_quest feedback)
           else None) /\
    exists quest,
      SmartQuestSystem._create_fallback_quest feedback = [quest] /\
      title quest =
        "기본 " +:+ SmartQuestSystem._determine_category (fb_content feedback) +:+
        " 실천하기" /\
      then_action quest =
        SmartQuestSystem._determine_category (fb_content feedback) +:+
        " 관련 기본 행동 실행".
Proof.
  intros self feedback w.
  assert (exists res w',
    SmartQuestSystem.process_user_feedback self feedback w = (Return res, w') /\
    (success res = false ->
       exists e,
         result_error res = Some e /\
         result_fallback_quest res =
           if system_ready self
           then Some (SmartQuestSystem._create_fallback_quest feedback)
           else None)) as (res & w' & Hrun & Hfail).
  { unfold SmartQuestSystem.process_user_feedback.
    destruct (system_ready self); cbn [negb].
    - unfold try_except.
      match goal with |- context [match ?body w with _ => _ end] =>
        destruct (body w) as [[res | e] w'] eqn:Hbody end.
      + exists res, w'. split; [reflexivity |]. intros Hf.
        revert Hbody. unfold bind at 1.
        destruct (find_similar_documents _ _ _ _ w) as [[docs | ?] w1]; [| discriminate].
        unfold bind at 1.
        destruct (SmartQuestSystem._evaluate_similarity docs feedback w1)
          as [[[|] | ?] w2]; [| | discriminate]; intros Hrun.
        * destruct (generate_from_existing_returns self docs feedback w2)
            as (res' & w'' & Hrun' & Hfail').
          rewrite Hrun' in Hrun. injection Hrun as <- _.
          destruct (Hfail' Hf) as [e ->]. eauto.
        * destruct (create_new_returns self feedback w2) as (res' & w'' & Hrun' & Hfail').
          rewrite Hrun' in Hrun. injection Hrun as <- _.
          destruct (Hfail' Hf) as [e ->]. eauto.
      + do 2 eexists. split; [reflexivity |]. intros _. eauto.
    - do 2 eexists. split; [reflexivity |]. intros _. eauto. }
  exists res, w'. split; [exact Hrun |]. split; [exact Hfail |].
  eexists. split; [reflexivity |]. split; reflexivity.
Qed.

(** C6, as stated, fails: with a quest generator that raises on the reuse
    path (the search finds the seeded neck-pain document at 0.9, the
    evaluation answers reuse, the generation raises), the orchestrator
    returns a successful result of the synthesize path, not the fallback
    result. *)
Lemma C6_reuse_failure_can_succeed :
  returned (reuse_steps timing_out_rag (feedback_of "목 통증") (initial_world sample_clock))
  = Some (["health_neck_001"], true, Some "Read timeout on endpoint URL") /\
  option_map (fun res => (success res, method res, result_fallback_quest res))
    (returned (SmartQuestSystem.process_user_feedback
                 (with_rag_generator timing_out_rag shipped)
                 (feedback_of "목 통증") (initial_world sample_clock)))
  = Some (true, Some "new_expert_document", None).
Proof. split; vm_compute; reflexivity. Qed.

(** C6 (amended): when the system is ready, the search returned, the
    evaluation answered reuse and the quest generation of the reuse path
    raised, the orchestrator drops the exception and runs the synthesize
    path from the world the failed generation left.  The result is that
    path's result: it is the fallback result (failure, message, the
    fallback quest set) only when a step of the synthesize path fails as
    well. *)
Theorem C6_reuse_failure_takes_synthesize_path :
  forall self feedback w docs w1 w1' e w2,
    system_ready self = true ->
    find_similar_documents (opensearch_client self) (fb_content feedback) 0.7 5 w
      = (Return docs, w1) ->
    SmartQuestSystem._evaluate_similarity docs feedback w1 = (Return true, w1') ->
    generate_from_documents (rag_generator self) docs feedback w1' = (Raise e, w2) ->
    SmartQuestSystem.process_user_feedback self feedback w =
      SmartQuestSystem._create_new_expert_document_and_quest self feedback w2 /\
    exists res w3,
      SmartQuestSystem.process_user_feedback self feedback w = (Return res, w3) /\
      (success res = false ->
       exists e', res = Failure e' (Some (SmartQuestSystem._create_fallback_quest feedback))).
Proof.
  intros self feedback w docs w1 w1' e w2 Hready Hfind Heval Hgen.
  assert (SmartQuestSystem.process_user_feedback self feedback w =
          SmartQuestSystem._create_new_expert_document_and_quest self feedback w2) as Hrun.
  { rewrite (process_ready _ _ _ _ _ _ _ Hready Hfind Heval).
    unfold SmartQuestSystem._generate_quest_from_existing, try_except at 1.
    unfold bind at 1. by rewrite Hgen. }
  split; [exact Hrun |]. rewrite Hrun. apply create_new_returns.
Qed.

Lemma C6_reuse_failure_takes_synthesize_path_witness :
  exists w2,
    SmartQuestSystem.process_user_feedback (with_rag_generator timing_out_rag shipped)
      (feedback_of "목 통증") (initial_world sample_clock) =
    SmartQuestSystem._create_new_expert_document_and_quest
      (with_rag_generator timing_out_rag shipped) (feedback_of "목 통증") w2.
Proof.
  eexists.
  eapply (C6_reuse_failure_takes_synthesize_path
            (with_rag_generator timing_out_rag shipped) (feedback_of "목 통증")
            (initial_world sample_clock)).
  - reflexivity.
  - vm_compute; reflexivity.
  - vm_compute; reflexivity.
  - vm_compute; reflexivity.
Defined.

(** ** Reindexing *)

(** C5, as stated, fails: a document indexed twice is held twice, and a
    search that matches it returns it twice. *)
Lemma C5_reindex_twice_duplicates :
  returned (reindex_twice_search "health_posture_001" "health" "목 통증을 줄이는 자세 교정"
              (initial_world sample_clock))
  = Some ["health_neck_001"; "health_posture_001"; "health_posture_001"] /\
  entries_for "health_posture_001"
    (snd (reindex_twice_search "health_posture_001" "health" "목 통증을 줄이는 자세 교정"
            (initial_world sample_clock)))
  = 2.
Proof. split; vm_compute; reflexivity. Qed.

(** C5 (amended): [index_document] appends; calling it twice with the same
    document leaves two more searchable entries for its identifier, and a
    search that the document passes, and whose limit does not truncate the
    candidates, returns it two more times. *)
Theorem C5_reindex_appends :
  forall document w,
  exists w1 w2,
    OpenSearchClient.index_document document w = (Return tt, w1) /\
    OpenSearchClient.index_document document w1 = (Return tt, w2) /\
    mock_documents w2 = (mock_documents w ++ [document; document])%list /\
    entries_for (document_id document) w1 = S (entries_for (document_id document) w) /\
    entries_for (document_id document) w2 = S (S (entries_for (document_id document) w)) /\
    forall query threshold limit,
      passes query threshold document = true ->
      length (candidates query threshold w2) <= limit ->
      exists found w3,
        OpenSearchClient.find_similar_documents query threshold limit w2
          = (Return found, w3) /\
        hits_for (document_id document) found =
          S (S (hits_for (document_id document) (candidates query threshold w))).
Proof.
  intros document w. do 2 eexists.
  split; [reflexivity |]. split; [reflexivity |].
  unfold entries_for. cbn [mock_documents with_mock_documents].
  split; [by rewrite <- app_assoc |].
  split; [| split].
  - rewrite !filter_app, !length_app, !filter_cons_True by done. cbn. lia.
  - rewrite !filter_app, !length_app, !filter_cons_True by done. cbn. lia.
  - intros query threshold limit Hp Hlen. do 2 eexists.
    split; [apply find_similar_documents_spec |]. cbn zeta.
    unfold candidates in *. cbn [mock_documents with_mock_documents] in *.
    rewrite take_ge by (by rewrite sort_desc_perm).
    unfold hits_for. rewrite sort_desc_perm.
    rewrite !filter_app, !length_app, !filter_cons_True by done.
    rewrite filter_nil. cbn. lia.
Qed.

(** ** What a search writes *)

Lemma foldl_annotate_other_key query docs h l key :
  key ≠ "similarity_score" ->
  deref (foldl (annotate query) h docs) l !! key = deref h l !! key.
Proof.
  intros Hkey. revert h. induction docs as [| d rest IH]; intros h; [reflexivity |].
  cbn [foldl]. rewrite IH. unfold annotate. by apply dict_set_other_key.
Qed.

Lemma foldl_annotate_untouched query docs h l :
  (forall d, d ∈ docs -> metadata d ≠ l) ->
  foldl (annotate query) h docs !! l = h !! l.
Proof.
  revert h. induction docs as [| d rest IH]; intros h Hl; [reflexivity |].
  cbn [foldl]. rewrite IH.
  - unfold annotate, dict_set. apply list_lookup_alter_ne. apply Hl. by left.
  - intros d' Hd'. apply Hl. by right.
Qed.

(** A dict that a document of the list refers to holds, after the loop,
    the score of one such document. *)
Lemma foldl_annotate_written query docs h l :
  (exists d, d ∈ docs /\ metadata d = l) -> l < length h ->
  exists doc',
    doc' ∈ docs /\ metadata doc' = l /\
    deref (foldl (annotate query) h docs) l !! "similarity_score" =
      Some (Py.Float (OpenSearchClient._calculate_mock_similarity query (content doc'))).
Proof.
  revert h. induction docs as [| d rest IH]; intros h (d0 & Hin & Hd0) Hl.
  { by apply elem_of_nil in Hin. }
  cbn [foldl].
  destruct (decide (Exists (λ d', metadata d' = l) rest)) as [Hex | Hnex].
  - apply Exists_exists in Hex.
    destruct (IH (annotate query h d) Hex) as (doc' & Hdoc' & Hm & Hv).
    + unfold annotate. by rewrite length_dict_set.
    + exists doc'. split; [by right |]. by split.
  - assert (metadata d = l) as Hd.
    { apply elem_of_cons in Hin as [-> | Hin]; [done |].
      exfalso. apply Hnex, Exists_exists. by exists d0. }
    exists d. split; [by left |]. split; [exact Hd |].
    unfold deref. rewrite foldl_annotate_untouched.
    + fold (deref (annotate query h d) l). unfold annotate.
      rewrite <- Hd, deref_dict_set_eq by lia. by rewrite lookup_insert_eq.
    + intros d' Hd' Hm. apply Hnex, Exists_exists. by exists d'.
Qed.

(** C8, as stated, fails: the search for "목 통증" writes the score 0.9 into
    the metadata of the seeded neck-pain document, which had no score
    before, and the entry is still there when the call has returned. *)
Lemma C8_search_annotates_stored_document :
  scores_on_index (initial_world sample_clock)
  = [("health_neck_001", None); ("finance_budget_001", None); ("skincare_acne_001", None)] /\
  scores_on_index
    (snd (OpenSearchClient.find_similar_documents "목 통증" 0.7 5
            (initial_world sample_clock)))
  = [("health_neck_001", Some (Py.Float 0.9)); ("finance_budget_001", None);
     ("skincare_acne_001", None)].
Proof. split; vm_compute; reflexivity. Qed.

(** The item persisted for a synthesized document shares the document's
    metadata dict: after a later search that matches the document, the
    persisted item shows the score as well. *)
Example search_annotates_persisted_item :
  scores_on_store
    (snd (SmartQuestSystem.process_user_feedback shipped (feedback_of "운동 루틴 추천")
            (initial_world sample_clock)))
  = [("health_20241214_103000", None)] /\
  scores_on_store
    (snd (OpenSearchClient.find_similar_documents "운동 루틴 추천" 0.7 5
       (snd (SmartQuestSystem.process_user_feedback shipped (feedback_of "운동 루틴 추천")
               (initial_world sample_clock)))))
  = [("health_20241214_103000", Some (Py.Float 0.8))].
Proof. split; vm_compute; reflexivity. Qed.

(** The last document of a list that refers to a dict. *)
Lemma last_referrer (docs : list ExpertDocument) l :
  (exists d, d ∈ docs /\ metadata d = l) ->
  exists before doc' after,
    docs = (before ++ doc' :: after)%list /\
    metadata doc' = l /\
    Forall (fun d => metadata d ≠ l) after.
Proof.
  induction docs as [| x rest IH]; intros (d & Hd & Hm).
  { by apply elem_of_nil in Hd. }
  destruct (decide (Exists (λ d', metadata d' = l) rest)) as [Hex | Hnex].
  - apply Exists_exists in Hex.
    destruct (IH Hex) as (before & doc' & after & -> & Hm' & Hafter).
    by exists (x :: before), doc', after.
  - exists [], x, rest. split; [reflexivity |]. split.
    + apply elem_of_cons in Hd as [<- | Hd]; [exact Hm |].
      exfalso. apply Hnex, Exists_exists. by exists d.
    + apply Forall_forall. intros y Hy Hmy. apply Hnex, Exists_exists. by exists y.
Qed.

(** The score a dict holds after the loop is the one written for the last
    document that refers to it. *)
Lemma foldl_annotate_last query h before doc after :
  metadata doc < length h ->
  Forall (fun d => metadata d ≠ metadata doc) after ->
  deref (foldl (annotate query) h (before ++ doc :: after)) (metadata doc)
    !! "similarity_score" =
  Some (Py.Float (OpenSearchClient._calculate_mock_similarity query (content doc))).
Proof.
  intros Hlen Hafter. rewrite foldl_app. cbn [foldl].
  unfold deref. rewrite foldl_annotate_untouched.
  - fold (deref (annotate query (foldl (annotate query) h before) doc) (metadata doc)).
    unfold annotate at 1.
    rewrite deref_dict_set_eq by (by rewrite length_foldl_annotate).
    by rewrite lookup_insert_eq.
  - rewrite Forall_forall in Hafter. exact Hafter.
Qed.

(** Two documents over one dict: the search for "목 통증" scores the first
    0.9 and the second 0.85; the dict keeps the score written last, and
    both documents report it. *)
Example shared_dict_keeps_last_score :
  returned (shared_dict_search "목 스트레칭 안내" "통증 관리 안내" "목 통증"
              (initial_world sample_clock))
  = Some [("health_neck_001", Py.Float 0.9); ("shared_001", Py.Float 0.85);
          ("shared_002", Py.Float 0.85)].
Proof. vm_compute; reflexivity. Qed.

(** C8 (amended): a search changes neither the list of indexed documents
    nor the store, and of the metadata dicts it changes only the entry
    [similarity_score]: a dict no passing document refers to is left as it
    was, and the dict of a document at or above the threshold keeps, after
    the call, the score the search wrote: that of the last passing document,
    in the order of the index, that refers to the dict. *)
Theorem C8_search_writes_only_the_score :
  forall query threshold limit w,
  exists found w',
    OpenSearchClient.find_similar_documents query threshold limit w = (Return found, w') /\
    mock_documents w' = mock_documents w /\
    mock_storage w' = mock_storage w /\
    length (heap w') = length (heap w) /\
    (forall l key,
        key ≠ "similarity_score" -> deref (heap w') l !! key = deref (heap w) l !! key) /\
    (forall l,
        (forall doc, doc ∈ mock_documents w -> metadata doc = l ->
                     passes query threshold doc = false) ->
        heap w' !! l = heap w !! l) /\
    (forall doc,
        doc ∈ mock_documents w -> passes query threshold doc = true ->
        metadata doc < length (heap w) ->
        exists before doc' after,
          candidates query threshold w = (before ++ doc' :: after)%list /\
          Forall (fun d => metadata d ≠ metadata doc) after /\
          doc' ∈ mock_documents w /\ metadata doc' = metadata doc /\
          passes query threshold doc' = true /\
          deref (heap w') (metadata doc) !! "similarity_score" =
            Some (Py.Float
                    (OpenSearchClient._calculate_mock_similarity query (content doc')))).
Proof.
  intros query threshold limit w. do 2 eexists.
  split; [apply find_similar_documents_spec |].
  cbn [heap mock_documents mock_storage with_heap].
  split; [reflexivity |]. split; [reflexivity |].
  split; [apply length_foldl_annotate |].
  split; [intros l key Hkey; by apply foldl_annotate_other_key |].
  split.
  - intros l Hl. apply foldl_annotate_untouched.
    intros d Hd Hm. apply list_elem_of_filter in Hd as [Hp Hd].
    specialize (Hl d Hd Hm). congruence.
  - intros doc Hdoc Hp Hlen. fold (candidates query threshold w).
    destruct (last_referrer (candidates query threshold w) (metadata doc))
      as (before & doc' & after & Hsplit & Hm & Hafter).
    { exists doc. split; [| done]. by apply list_elem_of_filter. }
    assert (doc' ∈ candidates query threshold w) as Hdoc'.
    { rewrite Hsplit. apply elem_of_app. right. by left. }
    apply list_elem_of_filter in Hdoc' as [Hp' Hdoc'].
    exists before, doc', after. split; [exact Hsplit |]. split; [exact Hafter |].
    split; [exact Hdoc' |]. split; [exact Hm |]. split; [exact Hp' |].
    rewrite Hsplit, <- Hm. apply foldl_annotate_last.
    + by rewrite Hm.
    + by rewrite Hm.
Qed.

(** ** Searching for a document by its own body *)

Lemma similarity_values query body :
  OpenSearchClient._calculate_mock_similarity query body ∈ [0.3; 0.8; 0.85; 0.9; 0.95]%Q.
Proof.
  unfold OpenSearchClient._calculate_mock_similarity.
  repeat match goal with
         | |- context [if ?b then _ else _] => destruct b
         end; set_solver.
Qed.

(** C4, as stated, fails: a saved and reindexed document whose body holds
    no keyword scores 0.3 against itself and is not returned by the search
    for its own body; one whose body holds a keyword is returned with the
    score of that keyword (0.9 here), not 1.0. *)
Lemma C4_self_search_is_not_one :
  returned (save_reindex_search "health_note_001" "health" "hello world"
              (initial_world sample_clock))
  = Some (0.3%Q, []) /\
  returned (save_reindex_search "health_posture_001" "health" "목 통증을 줄이는 자세 교정"
              (initial_world sample_clock))
  = Some (0.9%Q, [("health_neck_001", Py.Float 0.9); ("health_posture_001", Py.Float 0.9)]).
Proof. split; vm_compute; reflexivity. Qed.

(** C4 (amended): the similarity function scores a body against itself at
    one of 0.3, 0.8, 0.85, 0.9, 0.95 (by the keywords the body holds), never
    at 1.0.  After a document is saved and reindexed, a search for its own
    body returns it only if that score reaches the threshold, and does
    return it then when the limit does not truncate the candidates; the
    score left on the document is that self-score when no other indexed
    document shares its metadata dict. *)
Theorem C4_self_search :
  forall document threshold limit w,
    let self_score :=
      OpenSearchClient._calculate_mock_similarity (content document) (content document) in
    self_score ∈ [0.3; 0.8; 0.85; 0.9; 0.95]%Q /\
    (self_score < 1)%Q /\
    exists w1 w2 found w3,
      DynamoDBClient.save_expert_document document w = (Return (document_id document), w1) /\
      mock_storage w1 !! document_id document = Some document /\
      OpenSearchClient.index_document document w1 = (Return tt, w2) /\
      OpenSearchClient.find_similar_documents (content document) threshold limit w2
        = (Return found, w3) /\
      (document ∈ found -> Qle_bool threshold self_score = true) /\
      (Qle_bool threshold self_score = true ->
       length (candidates (content document) threshold w2) <= limit ->
       document ∈ found) /\
      (Qle_bool threshold self_score = true ->
       metadata document < length (heap w) ->
       (forall d, d ∈ mock_documents w -> metadata d ≠ metadata document) ->
       annotation w3 document = Py.Float self_score).
Proof.
  intros document threshold limit w self_score.
  split; [apply similarity_values |].
  split.
  { pose proof (similarity_values (content document) (content document)) as Hv.
    fold self_score in Hv. revert Hv. generalize self_score. intros s Hs.
    repeat (apply elem_of_cons in Hs as [-> | Hs]); [done .. |].
    by apply elem_of_nil in Hs. }
  do 4 eexists.
  split; [reflexivity |].
  split; [cbn [mock_storage with_mock_storage]; apply lookup_insert_eq |].
  split; [reflexivity |].
  split; [apply find_similar_documents_spec |].
  cbn [heap mock_documents mock_storage with_heap with_mock_documents with_mock_storage].
  set (query := content document).
  set (results := filter _ _).
  split; [| split].
  - intros Hin. apply elem_of_take in Hin as (i & Hin & _).
    apply list_elem_of_lookup_2 in Hin. rewrite sort_desc_perm in Hin.
    apply list_elem_of_filter in Hin as [Hp _]. exact Hp.
  - intros Hp Hlen. rewrite take_ge.
    + rewrite sort_desc_perm. apply list_elem_of_filter. split; [exact Hp |].
      apply elem_of_app. right. by left.
    + rewrite sort_desc_perm. exact Hlen.
  - intros Hp Hl Hfresh. unfold annotation, dict_get.
    cbn [heap with_heap].
    destruct (foldl_annotate_written query results (heap w) (metadata document))
      as (doc' & Hdoc' & Hm & Hv).
    + exists document. split; [| done]. apply list_elem_of_filter. split; [exact Hp |].
      apply elem_of_app. right. by left.
    + exact Hl.
    + apply list_elem_of_filter in Hdoc' as [_ Hdoc'].
      apply elem_of_app in Hdoc' as [Hold | Hnew].
      * exfalso. by apply (Hfresh doc').
      * apply list_elem_of_singleton in Hnew. subst doc'. by rewrite Hv.
Qed.

(** ** The shipped pipeline, step by step *)

(** On what a search found, the evaluation answers without raising, and it
    answers reuse only on a non-empty list. *)
Lemma evaluate_found query threshold limit w docs w' feedback :
  OpenSearchClient.find_similar_documents query threshold limit w = (Return docs, w') ->
  exists reuse,
    SmartQuestSystem._evaluate_similarity docs feedback w' = (Return reuse, w') /\
    (reuse = true -> docs ≠ []).
Proof.
  intros Hfind. destruct docs as [| best rest].
  { exists false. split; [reflexivity | discriminate]. }
  destruct (found_is_annotated _ _ _ _ _ _ best Hfind) as [top Htop];
    [apply elem_of_cons; by left |].
  eexists. split; [| done].
  apply evaluate_similarity_number with (s := top). by rewrite Htop.
Qed.

(** The synthesize path of the shipped system: one new document, tagged by
    the synthesizer's classifier, persisted under its identifier and
    appended to the index; the quests are those of its category. *)
Lemma shipped_synthesize feedback w :
  exists doc time n w',
    SmartQuestSystem._create_new_expert_document_and_quest shipped feedback w =
      (Return (NewExpertDocument (document_id doc) doc
                 (RAGQuestGenerator._generate_mock_quests (topic doc) (fb_content feedback))
                 time n), w') /\
    topic doc = StrandsAgentSystem._determine_category (fb_content feedback) /\
    mock_documents w' = (mock_documents w ++ [doc])%list /\
    mock_storage w' = <[document_id doc := doc]> (mock_storage w).
Proof.
  do 4 eexists. split; [reflexivity |]. split; [reflexivity |]. split; reflexivity.
Qed.

(** The reuse path of the shipped system: the quests of the category of the
    first document found; index and store are left alone. *)
Lemma shipped_reuse best rest feedback w :
  exists time scores w',
    SmartQuestSystem._generate_quest_from_existing shipped (best :: rest) feedback w =
      (Return (ExistingDocuments (length (best :: rest))
                 (RAGQuestGenerator._generate_mock_quests (topic best) (fb_content feedback))
                 time scores), w') /\
    mock_documents w' = mock_documents w /\
    mock_storage w' = mock_storage w.
Proof.
  do 3 eexists. split; [reflexivity |]. split; reflexivity.
Qed.

(** A request to the shipped system takes one of the two paths and
    succeeds. *)
Lemma shipped_process feedback w :
  exists res w',
    SmartQuestSystem.process_user_feedback shipped feedback w = (Return res, w') /\
    ((exists best rest time scores,
         res = ExistingDocuments (length (best :: rest))
                 (RAGQuestGenerator._generate_mock_quests (topic best) (fb_content feedback))
                 time scores /\
         best ∈ mock_documents w /\
         mock_documents w' = mock_documents w /\
         mock_storage w' = mock_storage w) \/
     (exists doc time n,
         res = NewExpertDocument (document_id doc) doc
                 (RAGQuestGenerator._generate_mock_quests (topic doc) (fb_content feedback))
                 time n /\
         topic doc = StrandsAgentSystem._determine_category (fb_content feedback) /\
         mock_documents w' = (mock_documents w ++ [doc])%list /\
         mock_storage w' = <[document_id doc := doc]> (mock_storage w))).
Proof.
  destruct (OpenSearchClient.find_similar_documents (fb_content feedback) 0.7 5 w)
    as [r w1] eqn:Hfind.
  assert (exists docs, r = Return docs) as [docs ->].
  { rewrite find_similar_documents_spec in Hfind. cbn zeta in Hfind.
    injection Hfind as <- _. eauto. }
  assert (mock_documents w1 = mock_documents w /\ mock_storage w1 = mock_storage w)
    as [Hdocs Hstore].
  { rewrite find_similar_documents_spec in Hfind. cbn zeta in Hfind.
    injection Hfind as _ <-. split; reflexivity. }
  destruct (evaluate_found _ _ _ _ _ _ feedback Hfind) as (reuse & Heval & Hne).
  rewrite (process_ready shipped feedback w docs w1 reuse w1 eq_refl Hfind Heval).
  destruct reuse.
  - destruct docs as [| best rest]; [by destruct Hne |].
    destruct (shipped_reuse best rest feedback w1) as (time & scores & w2 & -> & Hd & Hs).
    do 2 eexists. split; [reflexivity |]. left.
    exists best, rest, time, scores. split; [reflexivity |].
    split; [| split; congruence].
    eapply found_is_indexed; [exact Hfind | by left].
  - destruct (shipped_synthesize feedback w1) as (doc & time & n & w2 & -> & Ht & Hd & Hs).
    do 2 eexists. split; [reflexivity |]. right.
    exists doc, time, n. split; [reflexivity |]. split; [exact Ht |].
    split; congruence.
Qed.

(** ** Index and store along the requests *)

(** C7, as stated, fails in the initial world: the index holds the three
    seeded documents and the store holds nothing. *)
Lemma C7_seeds_are_indexed_not_persisted :
  map document_id (mock_documents (initial_world sample_clock))
  = ["health_neck_001"; "finance_budget_001"; "skincare_acne_001"] /\
  map_to_list (mock_storage (initial_world sample_clock)) = [].
Proof. split; vm_compute; reflexivity. Qed.

(** With a search backend that refuses to index, the synthesize path
    persists the new document, fails at the reindex step and returns the
    fallback result; nothing withdraws the persisted document. *)
Example persisted_but_not_indexed_when_indexing_fails :
  option_map (fun res => (success res, result_error res))
    (returned (SmartQuestSystem.process_user_feedback
                 (with_opensearch_client read_only_opensearch shipped)
                 (feedback_of "hello") (initial_world sample_clock)))
  = Some (false, Some "index is read-only") /\
  map fst (map_to_list (mock_storage
    (snd (SmartQuestSystem.process_user_feedback
            (with_opensearch_client read_only_opensearch shipped)
            (feedback_of "hello") (initial_world sample_clock)))))
  = ["health_20241214_103000"] /\
  map document_id (mock_documents
    (snd (SmartQuestSystem.process_user_feedback
            (with_opensearch_client read_only_opensearch shipped)
            (feedback_of "hello") (initial_world sample_clock))))
  = ["health_neck_001"; "finance_budget_001"; "skincare_acne_001"].
Proof. repeat split; vm_compute; reflexivity. Qed.

Lemma index_ids_app w docs doc :
  mock_documents w = (docs ++ [doc])%list ->
  index_ids w = list_to_set (map document_id docs) ∪ {[document_id doc]}.
Proof.
  intros Hd. unfold index_ids. rewrite Hd, map_app, list_to_set_app_L.
  cbn. by rewrite union_empty_r_L.
Qed.

(** In every world the shipped system reaches, the identifiers held by
    the index are the three seeded identifiers together with the
    identifiers persisted in the store, and every item of the store is an
    indexed document stored under its own identifier. *)
Lemma reachable_index_ids :
  forall w,
    reachable w ->
    index_ids w = seed_ids ∪ dom (mock_storage w) /\
    (forall id item,
        mock_storage w !! id = Some item ->
        document_id item = id /\ item ∈ mock_documents w).
Proof.
  intros w Hreach. induction Hreach as [clk | w feedback Hreach [IHids IHitems]].
  - split.
    + unfold index_ids, seed_ids. cbn. rewrite dom_empty_L. set_solver.
    + intros id item Hitem. cbn in Hitem. by rewrite lookup_empty in Hitem.
  - destruct (shipped_process feedback w) as (res & w' & -> & Hcases). cbn [snd].
    destruct Hcases as [(best & rest & time & scores & _ & _ & Hdocs & Hstore)
                       | (doc & time & n & _ & _ & Hdocs & Hstore)].
    + unfold index_ids in *. rewrite Hdocs, Hstore. split; [exact IHids | exact IHitems].
    + split.
      * rewrite (index_ids_app _ _ _ Hdocs), Hstore, dom_insert_L.
        fold (index_ids w). rewrite IHids.
        by rewrite <- (assoc_L (∪)), (comm_L (∪) (dom (mock_storage w))).
      * intros id item. rewrite Hstore, Hdocs, lookup_insert.
        case_decide as Hid.
        -- intros [= <-]. split; [exact Hid |]. apply elem_of_app. right. by left.
        -- intros Hitem. destruct (IHitems id item Hitem) as [Hi Hin].
           split; [exact Hi |]. apply elem_of_app. by left.
Qed.

(** ** The categories of the pipeline *)

Lemma orchestrator_category_known text :
  known_category (SmartQuestSystem._determine_category text) = true.
Proof.
  unfold SmartQuestSystem._determine_category.
  repeat match goal with
         | |- context [if ?b then _ else _] => destruct b
         end; reflexivity.
Qed.

Lemma synthesizer_category_known text :
  known_category (StrandsAgentSystem._determine_category text) = true.
Proof.
  unfold StrandsAgentSystem._determine_category.
  repeat match goal with
         | |- context [if ?b then _ else _] => destruct b
         end; reflexivity.
Qed.

Lemma any_in_app keywords1 keywords2 text :
  Py.any_in (keywords1 ++ keywords2) text = Py.any_in keywords1 text || Py.any_in keywords2 text.
Proof. unfold Py.any_in. apply existsb_app. Qed.

Lemma orchestrator_category_default text :
  Py.any_in orchestrator_keywords (Py.lower text) = false ->
  SmartQuestSystem._determine_category text = "health".
Proof.
  intros Hnone. unfold SmartQuestSystem._determine_category.
  change orchestrator_keywords with
    (["목"; "어깨"; "허리"; "통증"; "건강"; "운동"; "스트레칭"; "몸"] ++
     ["돈"; "예산"; "투자"; "저축"; "재정"; "금융"; "주식"; "펀드"] ++
     ["피부"; "스킨케어"; "화장품"; "세안"; "로션"; "크림"; "여드름"])%list in Hnone.
  rewrite !any_in_app in Hnone.
  apply orb_false_elim in Hnone as [-> Hnone].
  apply orb_false_elim in Hnone as [-> ->]. reflexivity.
Qed.

Lemma known_category_three_quests category text :
  known_category category = true ->
  exists q1 q2 q3,
    RAGQuestGenerator._generate_mock_quests category text = [q1; q2; q3] /\
    map difficulty [q1; q2; q3] = ["쉬움"; "보통"; "어려움"].
Proof.
  intros Hk. destruct (quest_templates_known _ Hk) as (q1 & q2 & q3 & Hq & Hd).
  exists q1, q2, q3. unfold RAGQuestGenerator._generate_mock_quests. by rewrite Hq.
Qed.

Lemma reachable_topics_known w :
  reachable w -> Forall (fun d => known_category (topic d) = true) (mock_documents w).
Proof.
  intros Hreach. induction Hreach as [clk | w feedback Hreach IH].
  - cbn. repeat constructor.
  - destruct (shipped_process feedback w) as (res & w' & -> & Hcases). cbn [snd].
    destruct Hcases as [(best & rest & time & scores & _ & _ & -> & _)
                       | (doc & time & n & _ & Htopic & -> & _)]; [exact IH |].
    apply Forall_app. split; [exact IH |]. constructor; [| constructor].
    rewrite Htopic. apply synthesizer_category_known.
Qed.

(** C10: both classifiers answer health, finance or skincare on every text
    (the orchestrator's answers health when no keyword occurs); in every
    world the shipped system reaches, every indexed document, seeded or
    synthesized, carries one of the three categories; and every request
    then returns a successful result with exactly three quests, of
    difficulty easy, medium, hard: the generic single quest is never
    produced. *)
Theorem C10_pipeline_categories_closed :
  forall w feedback,
    reachable w ->
    (forall text,
        known_category (SmartQuestSystem._determine_category text) = true /\
        known_category (StrandsAgentSystem._determine_category text) = true /\
        (Py.any_in orchestrator_keywords (Py.lower text) = false ->
         SmartQuestSystem._determine_category text = "health")) /\
    Forall (fun d => known_category (topic d) = true) (mock_documents w) /\
    exists res w',
      SmartQuestSystem.process_user_feedback shipped feedback w = (Return res, w') /\
      success res = true /\
      exists q1 q2 q3,
        result_quests res = Some [q1; q2; q3] /\
        map difficulty [q1; q2; q3] = ["쉬움"; "보통"; "어려움"].
Proof.
  intros w feedback Hreach.
  split.
  { intros text. split; [apply orchestrator_category_known |].
    split; [apply synthesizer_category_known | apply orchestrator_category_default]. }
  pose proof (reachable_topics_known w Hreach) as Htopics.
  split; [exact Htopics |].
  destruct (shipped_process feedback w) as (res & w' & Hrun & Hcases).
  exists res, w'. split; [exact Hrun |].
  destruct Hcases as [(best & rest & time & scores & -> & Hbest & _)
                     | (doc & time & n & -> & Htopic & _)].
  - split; [reflexivity |]. cbn [result_quests].
    rewrite Forall_forall in Htopics.
    destruct (known_category_three_quests (topic best) (fb_content feedback)
                (Htopics best Hbest)) as (q1 & q2 & q3 & -> & Hd).
    by exists q1, q2, q3.
  - split; [reflexivity |]. cbn [result_quests].
    destruct (known_category_three_quests (topic doc) (fb_content feedback))
      as (q1 & q2 & q3 & -> & Hd).
    + rewrite Htopic. apply synthesizer_category_known.
    + by exists q1, q2, q3.
Qed.

Lemma C10_pipeline_categories_closed_witness :
  exists res w',
    SmartQuestSystem.process_user_feedback shipped (feedback_of "목이 아파요")
      world_after_one_synthesis = (Return res, w') /\
    success res = true /\
    exists q1 q2 q3,
      result_quests res = Some [q1; q2; q3] /\
      map difficulty [q1; q2; q3] = ["쉬움"; "보통"; "어려움"].
Proof.
  exact (proj2 (proj2 (C10_pipeline_categories_closed world_after_one_synthesis
                         (feedback_of "목이 아파요")
                         (reachable_process _ _ (reachable_initial sample_clock))))).
Defined.

(** ** End-to-end runs of the shipped system *)

(** Feedback on neck pain against the seeded corpus: the neck-pain document
    scores 0.9, the documents are reused, the three health quests are
    returned and nothing is synthesized. *)
Example neck_pain_feedback_reuses :
  option_map
    (fun res => (method res, option_map (map title) (result_quests res)))
    (returned (SmartQuestSystem.process_user_feedback shipped
                 (feedback_of "목이 아파서 스트레칭하고 싶어요") (initial_world sample_clock)))
  = Some (Some "existing_documents",
          Some ["아침 목 깨우기"; "업무 중 목 휴식"; "저녁 목 이완 루틴"]) /\
  map document_id (mock_documents
    (snd (SmartQuestSystem.process_user_feedback shipped
            (feedback_of "목이 아파서 스트레칭하고 싶어요") (initial_world sample_clock))))
  = ["health_neck_001"; "finance_budget_001"; "skincare_acne_001"].
Proof. split; vm_compute; reflexivity. Qed.

(** Feedback on a topic the corpus does not cover: a document is
    synthesized, persisted and indexed under an identifier made of its
    category and the time. *)
Example uncovered_feedback_synthesizes :
  option_map
    (fun res => (method res, option_map document_id (result_expert_document res),
                 option_map length (result_quests res)))
    (returned (SmartQuestSystem.process_user_feedback shipped
                 (feedback_of "주식 투자 방법") (initial_world sample_clock)))
  = Some (Some "new_expert_document", Some "finance_20241214_103000", Some 3) /\
  map document_id (mock_documents world_after_one_synthesis)
  = ["health_neck_001"; "finance_budget_001"; "skincare_acne_001";
     "finance_20241214_103000"] /\
  map fst (map_to_list (mock_storage world_after_one_synthesis))
  = ["finance_20241214_103000"].
Proof. repeat split; vm_compute; reflexivity. Qed.

(** The trusted-source retrieval raises: the result reports the failure
    with the message and one fallback quest worded with the category of the
    feedback text. *)
Example failed_synthesis_falls_back :
  option_map
    (fun res => (success res, result_error res,
                 option_map (map title) (result_fallback_quest res)))
    (returned (SmartQuestSystem.process_user_feedback
                 (with_kendra_client unreachable_kendra shipped)
                 (feedback_of "크림 추천") (initial_world sample_clock)))
  = Some (false, Some "Could not connect to the endpoint URL",
          Some ["기본 skincare 실천하기"]).
Proof. vm_compute; reflexivity. Qed.

(** * Further properties of the pipeline *)

(** ** Substrings *)

Lemma lower_app a b : Py.lower (a +:+ b) = Py.lower a +:+ Py.lower b.
Proof.
  induction a as [| c a IH]; [reflexivity |].
  change (String c a +:+ b) with (String c (a +:+ b)).
  cbn [Py.lower]. rewrite IH. reflexivity.
Qed.

Lemma prefix_nil s : String.prefix "" s = true.
Proof. by destruct s. Qed.

Lemma prefix_app k a b :
  String.prefix k a = true -> String.prefix k (a +:+ b) = true.
Proof.
  revert a. induction k as [| c k IH]; intros a Hp; [apply prefix_nil |].
  destruct a as [| c' a]; [discriminate |].
  change (String c' a +:+ b) with (String c' (a +:+ b)).
  cbn [String.prefix] in *.
  destruct (ascii_dec c c'); [by apply IH | discriminate].
Qed.

Lemma prefix_self k b : String.prefix k (k +:+ b) = true.
Proof.
  induction k as [| c k IH]; [apply prefix_nil |].
  change (String c k +:+ b) with (String c (k +:+ b)).
  cbn [String.prefix].
  destruct (ascii_dec c c); [exact IH | done].
Qed.

Lemma str_in_app_l k a b : Py.str_in k a = true -> Py.str_in k (a +:+ b) = true.
Proof.
  induction a as [| c a IH]; intros Hin.
  - cbn in Hin. rewrite orb_false_r in Hin.
    destruct k; [| discriminate]. destruct b; reflexivity.
  - cbn [Py.str_in] in Hin. apply orb_true_iff in Hin as [Hp | Hin].
    + change (String c a +:+ b) with (String c (a +:+ b)).
      cbn [Py.str_in]. apply orb_true_iff. left.
      by apply (prefix_app k (String c a) b).
    + change (String c a +:+ b) with (String c (a +:+ b)).
      cbn [Py.str_in]. apply orb_true_iff. right. by apply IH.
Qed.

Lemma str_in_app_r k a b : Py.str_in k b = true -> Py.str_in k (a +:+ b) = true.
Proof.
  intros Hin. induction a as [| c a IH]; [exact Hin |].
  change (String c a +:+ b) with (String c (a +:+ b)).
  cbn [Py.str_in]. apply orb_true_iff. by right.
Qed.

Lemma append_empty_r s : s +:+ "" = s.
Proof.
  induction s as [| c s IH]; [reflexivity |].
  change (String c s +:+ "") with (String c (s +:+ "")). by rewrite IH.
Qed.

Lemma str_in_self k : Py.str_in k k = true.
Proof.
  destruct k as [| c k]; [reflexivity |].
  cbn [Py.str_in]. apply orb_true_iff. left.
  rewrite <- (append_empty_r (String c k)) at 2. apply prefix_self.
Qed.

(** A substring of a part is a substring of the joined text. *)
Lemma str_in_join k sep parts part :
  part ∈ parts -> Py.str_in k part = true -> Py.str_in k (Py.join sep parts) = true.
Proof.
  intros Hin Hk. induction parts as [| p rest IH]; [by apply elem_of_nil in Hin |].
  apply elem_of_cons in Hin as [-> | Hin].
  - destruct rest as [| p' rest']; [exact Hk |].
    cbn [Py.join]. by apply str_in_app_l.
  - destruct rest as [| p' rest']; [by apply elem_of_nil in Hin |].
    cbn [Py.join]. apply str_in_app_r, str_in_app_r. by apply IH.
Qed.

(** ** The synthesized document *)

Lemma expert_content_holds_request feedback sources category :
  Py.str_in (fb_content feedback)
    (StrandsAgentSystem._generate_mock_expert_content feedback sources category) = true.
Proof.
  unfold StrandsAgentSystem._generate_mock_expert_content.
  apply str_in_join with (part := fb_content feedback); [| apply str_in_self].
  do 3 (apply elem_of_cons; right). apply elem_of_cons. by left.
Qed.

Lemma expert_content_holds_titles feedback sources category source :
  source ∈ sources ->
  Py.str_in (src_title source)
    (StrandsAgentSystem._generate_mock_expert_content feedback sources category) = true.
Proof.
  intros Hin. unfold StrandsAgentSystem._generate_mock_expert_content.
  match goal with
  | |- context [Py.join Py.nl (map ?f sources)] =>
      apply str_in_join with (part := Py.join Py.nl (map f sources));
      [do 6 (apply elem_of_cons; right); apply elem_of_cons; by left |];
      apply str_in_join with (part := f source);
      [by apply (list_elem_of_fmap_2 f) |]
  end.
  cbn beta. apply str_in_app_r, str_in_app_l, str_in_self.
Qed.

(** X1: [create_expert_document] never raises.  The document it returns
    holds the feedback text and the title of every trusted source in its
    body, is tagged with the synthesizer's category and refers to a
    metadata dict that is new in the heap (no dict that existed is
    touched); two readings of the clock are consumed. *)
Theorem X1_create_expert_document :
  forall feedback sources w,
  exists doc meta w',
    StrandsAgentSystem.create_expert_document feedback sources w = (Return doc, w') /\
    Py.str_in (fb_content feedback) (content doc) = true /\
    (forall source, source ∈ sources -> Py.str_in (src_title source) (content doc) = true) /\
    topic doc = StrandsAgentSystem._determine_category (fb_content feedback) /\
    metadata doc = length (heap w) /\
    heap w' = (heap w ++ [meta])%list /\
    meta !! "user_request" = Some (Py.Str (fb_content feedback)) /\
    meta !! "trusted_sources_count" = Some (Py.Int (Z.of_nat (length sources))) /\
    meta !! "similarity_score" = None /\
    ticks w' = S (S (ticks w)) /\
    mock_documents w' = mock_documents w /\
    mock_storage w' = mock_storage w.
Proof.
  intros feedback sources w. do 3 eexists.
  split; [reflexivity |].
  split; [apply expert_content_holds_request |].
  split; [intros source Hin; by apply expert_content_holds_titles |].
  repeat split; reflexivity.
Qed.

(** ** The order of the search results *)

Lemma Qle_bool_false x y : Qle_bool x y = false -> (y < x)%Q.
Proof.
  intros Hf. apply Qnot_le_lt. intros Hle. apply Qle_bool_iff in Hle. congruence.
Qed.

Lemma descending_trans key : Transitive (descending key).
Proof. intros a b c Hab Hbc. unfold descending in *. by eapply Qle_trans. Qed.

Lemma insert_desc_HdRel key y x l :
  HdRel (descending key) y l -> descending key y x ->
  HdRel (descending key) y (OpenSearchClient.insert_desc key x l).
Proof.
  intros Hhd Hyx. destruct l as [| z rest]; cbn [OpenSearchClient.insert_desc].
  - by constructor.
  - destruct (Qle_bool (key z) (key x)); constructor; [exact Hyx |].
    by inversion Hhd.
Qed.

Lemma insert_desc_Sorted key x l :
  Sorted (descending key) l -> Sorted (descending key) (OpenSearchClient.insert_desc key x l).
Proof.
  induction l as [| y rest IH]; intros Hs; cbn [OpenSearchClient.insert_desc].
  - repeat constructor.
  - destruct (Qle_bool (key y) (key x)) eqn:Hle.
    + constructor; [exact Hs |]. constructor. by apply Qle_bool_iff.
    + inversion Hs as [| ? ? Hrest Hhd]; subst. constructor; [by apply IH |].
      apply insert_desc_HdRel; [exact Hhd |].
      unfold descending. apply Qlt_le_weak. by apply Qle_bool_false.
Qed.

Lemma sort_desc_Sorted key l : Sorted (descending key) (OpenSearchClient.sort_desc key l).
Proof.
  induction l as [| x rest IH]; [constructor |].
  unfold OpenSearchClient.sort_desc in *. cbn [foldr]. by apply insert_desc_Sorted.
Qed.

Lemma sort_desc_StronglySorted key l :
  StronglySorted (descending key) (OpenSearchClient.sort_desc key l).
Proof.
  apply Sorted_StronglySorted; [apply descending_trans | apply sort_desc_Sorted].
Qed.

Lemma take_StronglySorted key n l :
  StronglySorted (descending key) l -> StronglySorted (descending key) (take n l).
Proof.
  intros Hs. rewrite <- (take_drop n l) in Hs. by apply StronglySorted_app_1_l in Hs.
Qed.

(** Documents of equal key keep the order they had. *)
Lemma insert_desc_stable key x l s :
  filter (λ d, Qeq_bool (key d) s = true) (OpenSearchClient.insert_desc key x l) =
  filter (λ d, Qeq_bool (key d) s = true) (x :: l).
Proof.
  induction l as [| y rest IH]; [reflexivity |].
  cbn [OpenSearchClient.insert_desc].
  destruct (Qle_bool (key y) (key x)) eqn:Hle; [reflexivity |].
  destruct (decide (Qeq_bool (key x) s = true)) as [Hx | Hx];
    destruct (decide (Qeq_bool (key y) s = true)) as [Hy | Hy].
  - exfalso. apply Qeq_bool_iff in Hx, Hy.
    apply Qle_bool_false in Hle. apply (Qlt_not_le _ _ Hle).
    rewrite Hx, Hy. apply Qle_refl.
  - rewrite (filter_cons_False _ y) by done. rewrite IH.
    rewrite !(filter_cons_True _ x) by done. by rewrite (filter_cons_False _ y).
  - rewrite (filter_cons_True _ y) by done. rewrite IH.
    rewrite !(filter_cons_False _ x) by done. by rewrite (filter_cons_True _ y).
  - rewrite (filter_cons_False _ y) by done. rewrite IH.
    rewrite !(filter_cons_False _ x) by done. by rewrite (filter_cons_False _ y).
Qed.

Lemma sort_desc_stable key l s :
  filter (λ d, Qeq_bool (key d) s = true) (OpenSearchClient.sort_desc key l) =
  filter (λ d, Qeq_bool (key d) s = true) l.
Proof.
  induction l as [| x rest IH]; [reflexivity |].
  unfold OpenSearchClient.sort_desc in *. cbn [foldr]. rewrite insert_desc_stable.
  destruct (decide (Qeq_bool (key x) s = true)).
  - rewrite !(filter_cons_True _ x) by done. by rewrite IH.
  - rewrite !(filter_cons_False _ x) by done. by rewrite IH.
Qed.

(** X2: what a search returns: at most [limit] documents, each of them
    indexed and at or above the threshold, none more often than the index
    holds it, in descending order of the score that the search left in the
    metadata; all the candidates when the limit does not truncate them. *)
Theorem X2_search_contract :
  forall query threshold limit w,
  exists found w',
    OpenSearchClient.find_similar_documents query threshold limit w = (Return found, w') /\
    length found <= limit /\
    found ⊆+ candidates query threshold w /\
    Forall (fun d => d ∈ mock_documents w /\ Qle_bool threshold (score query d) = true) found /\
    StronglySorted (descending (OpenSearchClient.sort_key (heap w'))) found /\
    (length (candidates query threshold w) <= limit ->
     found ≡ₚ candidates query threshold w).
Proof.
  intros query threshold limit w. do 2 eexists.
  split; [apply find_similar_documents_spec |]. cbn zeta.
  fold (candidates query threshold w). cbn [heap with_heap].
  set (key := OpenSearchClient.sort_key _).
  split; [rewrite length_take; lia |].
  split.
  { rewrite <- (sort_desc_perm key (candidates query threshold w)) at 2.
    apply sublist_submseteq, sublist_take. }
  split.
  { apply Forall_forall. intros d Hd. apply elem_of_take in Hd as (i & Hd & _).
    apply list_elem_of_lookup_2 in Hd. rewrite sort_desc_perm in Hd.
    apply list_elem_of_filter in Hd as [Hp Hd]. by split. }
  split; [apply take_StronglySorted, sort_desc_StronglySorted |].
  intros Hlen. rewrite take_ge; [apply sort_desc_perm |].
  by rewrite sort_desc_perm.
Qed.

(** X3: ties are broken by index order: when the limit does not truncate
    the candidates, the returned documents of any one score are the
    candidates of that score in the order the index holds them. *)
Theorem X3_search_is_stable :
  forall query threshold limit w s,
    length (candidates query threshold w) <= limit ->
    exists found w',
      OpenSearchClient.find_similar_documents query threshold limit w = (Return found, w') /\
      filter (λ d, Qeq_bool (OpenSearchClient.sort_key (heap w') d) s = true) found =
      filter (λ d, Qeq_bool (OpenSearchClient.sort_key (heap w') d) s = true)
             (candidates query threshold w).
Proof.
  intros query threshold limit w s Hlen. do 2 eexists.
  split; [apply find_similar_documents_spec |]. cbn zeta.
  fold (candidates query threshold w). cbn [heap with_heap].
  rewrite take_ge by (by rewrite sort_desc_perm). apply sort_desc_stable.
Qed.

Lemma X3_search_is_stable_witness :
  exists found w',
    OpenSearchClient.find_similar_documents "목" 0.7 5
      (snd (reindex_twice_search "health_posture_001" "health" "목 통증을 줄이는 자세 교정"
              (initial_world sample_clock))) = (Return found, w') /\
    filter (λ d, Qeq_bool (OpenSearchClient.sort_key (heap w') d) 0.9 = true) found =
    filter (λ d, Qeq_bool (OpenSearchClient.sort_key (heap w') d) 0.9 = true)
           (candidates "목" 0.7
              (snd (reindex_twice_search "health_posture_001" "health"
                      "목 통증을 줄이는 자세 교정" (initial_world sample_clock)))).
Proof.
  apply (X3_search_is_stable "목" 0.7 5 _ 0.9). vm_compute. lia.
Defined.

(** ** Documents with a metadata dict of their own *)

Lemma NoDup_fmap_eq {A B} (f : A -> B) (l : list A) x y :
  NoDup (map f l) -> x ∈ l -> y ∈ l -> f x = f y -> x = y.
Proof.
  induction l as [| a l IH]; intros Hnd Hx Hy Hf; [by apply elem_of_nil in Hx |].
  cbn in Hnd. apply NoDup_cons in Hnd as [Ha Hnd].
  apply elem_of_cons in Hx as [-> | Hx]; apply elem_of_cons in Hy as [-> | Hy].
  - reflexivity.
  - exfalso. apply Ha. rewrite Hf. by apply (list_elem_of_fmap_2 f).
  - exfalso. apply Ha. rewrite <- Hf. by apply (list_elem_of_fmap_2 f).
  - by apply IH.
Qed.

(** Without aliasing, the score on a candidate after the search is its own. *)
Lemma annotation_exact query threshold w d :
  own_metadata w -> d ∈ candidates query threshold w ->
  deref (foldl (annotate query) (heap w) (candidates query threshold w)) (metadata d)
    !! "similarity_score" = Some (Py.Float (score query d)).
Proof.
  intros [Hnd Hlen] Hd.
  assert (d ∈ mock_documents w) as Hdw by (by apply list_elem_of_filter in Hd as [_ ?]).
  destruct (foldl_annotate_written query (candidates query threshold w) (heap w) (metadata d))
    as (d' & Hd' & Hm & Hv).
  - by exists d.
  - rewrite Forall_forall in Hlen. by apply Hlen.
  - apply list_elem_of_filter in Hd' as [_ Hd'w].
    assert (d = d') as <- by (by apply (NoDup_fmap_eq metadata (mock_documents w))).
    exact Hv.
Qed.

Lemma StronglySorted_change {A} (R R' : relation A) l :
  (forall a b, a ∈ l -> b ∈ l -> R a b -> R' a b) ->
  StronglySorted R l -> StronglySorted R' l.
Proof.
  intros Himpl Hs. induction Hs as [| a l Hs IH Hall]; constructor.
  - apply IH. intros x y Hx Hy. apply Himpl; by right.
  - rewrite Forall_forall in Hall |- *. intros b Hb.
    apply Himpl; [by left | by right | by apply Hall].
Qed.

(** X4: in a world where every indexed document has a metadata dict of its
    own, a search leaves on every document it returns exactly that
    document's similarity to the query, returns the documents in descending
    order of similarity, and keeps the world in that shape. *)
Theorem X4_search_scores_are_own :
  forall query threshold limit w,
    own_metadata w ->
    exists found w',
      OpenSearchClient.find_similar_documents query threshold limit w = (Return found, w') /\
      Forall (fun d => annotation w' d = Py.Float (score query d)) found /\
      StronglySorted (descending (score query)) found /\
      own_metadata w'.
Proof.
  intros query threshold limit w Hown. do 2 eexists.
  split; [apply find_similar_documents_spec |]. cbn zeta.
  fold (candidates query threshold w).
  set (h := foldl _ _ _).
  assert (forall d, d ∈ candidates query threshold w ->
                    deref h (metadata d) !! "similarity_score"
                    = Some (Py.Float (score query d))) as Hexact.
  { intros d Hd. by apply annotation_exact. }
  assert (forall d, d ∈ take limit (OpenSearchClient.sort_desc (OpenSearchClient.sort_key h)
                                     (candidates query threshold w)) ->
                    d ∈ candidates query threshold w) as Hsub.
  { intros d Hd. apply elem_of_take in Hd as (i & Hd & _).
    apply list_elem_of_lookup_2 in Hd. by rewrite sort_desc_perm in Hd. }
  split; [| split].
  - apply Forall_forall. intros d Hd. unfold annotation, dict_get. cbn [heap with_heap].
    by rewrite (Hexact d (Hsub d Hd)).
  - eapply StronglySorted_change;
      [| apply take_StronglySorted, (sort_desc_StronglySorted (OpenSearchClient.sort_key h))].
    intros a b Ha Hb. unfold descending, OpenSearchClient.sort_key, dict_get.
    by rewrite (Hexact a (Hsub a Ha)), (Hexact b (Hsub b Hb)).
  - destruct Hown as [Hnd Hlen]. split; [exact Hnd |].
    cbn [heap mock_documents with_heap]. subst h.
    by rewrite length_foldl_annotate.
Qed.

(** ** A request to the shipped system, in full *)

Lemma find_shipped query w :
  OpenSearchClient.find_similar_documents query 0.7 5 w
  = (Return (found_for query w), searched query w).
Proof. apply find_similar_documents_spec. Qed.

Lemma shipped_reuse_trace best rest feedback w :
  exists quests time,
    SmartQuestSystem._generate_quest_from_existing shipped (best :: rest) feedback w =
      (Return (ExistingDocuments (length (best :: rest)) quests time
                 (reported_scores w (best :: rest))),
       with_ticks (S (ticks w)) w).
Proof. do 2 eexists. reflexivity. Qed.

Lemma shipped_synthesize_trace feedback w :
  exists quests time n meta w',
    SmartQuestSystem._create_new_expert_document_and_quest shipped feedback w =
      (Return (NewExpertDocument (document_id (synthesized_document feedback w))
                 (synthesized_document feedback w) quests time n), w') /\
    heap w' = (heap w ++ [meta])%list /\
    meta !! "similarity_score" = None /\
    mock_documents w' = (mock_documents w ++ [synthesized_document feedback w])%list /\
    mock_storage w' =
      <[document_id (synthesized_document feedback w) := synthesized_document feedback w]>
        (mock_storage w) /\
    clock w' = clock w /\
    ticks w' = S (S (S (ticks w))).
Proof. do 5 eexists. repeat split; reflexivity. Qed.

(** The request takes the path the evaluation of the search result names,
    and changes the world as that path does. *)
Lemma shipped_request feedback w :
  exists reuse res w',
    SmartQuestSystem._evaluate_similarity (found_for (fb_content feedback) w) feedback
      (searched (fb_content feedback) w)
      = (Return reuse, searched (fb_content feedback) w) /\
    SmartQuestSystem.process_user_feedback shipped feedback w = (Return res, w') /\
    clock w' = clock w /\
    if reuse
    then
      (exists quests time,
          res = ExistingDocuments (length (found_for (fb_content feedback) w)) quests time
                  (reported_scores (searched (fb_content feedback) w)
                     (found_for (fb_content feedback) w))) /\
      found_for (fb_content feedback) w ≠ [] /\
      heap w' = heap (searched (fb_content feedback) w) /\
      mock_documents w' = mock_documents w /\
      mock_storage w' = mock_storage w /\
      ticks w' = S (ticks w)
    else
      (exists quests time n meta,
          res = NewExpertDocument
                  (document_id (synthesized_document feedback (searched (fb_content feedback) w)))
                  (synthesized_document feedback (searched (fb_content feedback) w))
                  quests time n /\
          heap w' = (heap (searched (fb_content feedback) w) ++ [meta])%list /\
          meta !! "similarity_score" = None) /\
      mock_documents w' =
        (mock_documents w ++
           [synthesized_document feedback (searched (fb_content feedback) w)])%list /\
      mock_storage w' =
        <[document_id (synthesized_document feedback (searched (fb_content feedback) w))
            := synthesized_document feedback (searched (fb_content feedback) w)]>
          (mock_storage w) /\
      ticks w' = S (S (S (ticks w))).
Proof.
  set (query := fb_content feedback).
  pose proof (find_shipped query w) as Hfind.
  destruct (evaluate_found _ _ _ _ _ _ feedback Hfind) as (reuse & Heval & Hne).
  exists reuse.
  rewrite (process_ready shipped feedback w _ _ reuse _ eq_refl Hfind Heval).
  destruct reuse.
  - specialize (Hne eq_refl).
    destruct (found_for query w) as [| best rest] eqn:Hfound; [done |].
    destruct (shipped_reuse_trace best rest feedback (searched query w))
      as (quests & time & ->).
    do 2 eexists. split; [exact Heval |]. split; [reflexivity |].
    split; [reflexivity |]. split; [by exists quests, time |].
    repeat split; done.
  - destruct (shipped_synthesize_trace feedback (searched query w))
      as (quests & time & n & meta & w' & -> & Hheap & Hmeta & Hdocs & Hstore & Hclock & Hticks).
    do 2 eexists. split; [exact Heval |]. split; [reflexivity |].
    split; [exact Hclock |].
    split; [by exists quests, time, n, meta |].
    split; [exact Hdocs |]. split; [exact Hstore | exact Hticks].
Qed.

(** ** What the requests keep *)

Lemma deref_app_l h extra l :
  l < length h -> deref (h ++ extra) l = deref h l.
Proof. intros Hl. unfold deref. by rewrite lookup_app_l. Qed.

Lemma initial_own_metadata clk : own_metadata (initial_world clk).
Proof.
  split; cbn.
  - apply (bool_decide_unpack _). vm_compute. exact I.
  - repeat constructor.
Qed.

Lemma request_keeps_own_metadata feedback w :
  own_metadata w ->
  own_metadata (snd (SmartQuestSystem.process_user_feedback shipped feedback w)).
Proof.
  intros [Hnd Hlen].
  destruct (shipped_request feedback w) as (reuse & res & w' & _ & -> & _ & Hpath).
  cbn [snd].
  assert (length (heap (searched (fb_content feedback) w)) = length (heap w)) as Hh.
  { unfold searched. cbn [heap with_heap]. apply length_foldl_annotate. }
  destruct reuse.
  - destruct Hpath as (_ & _ & Hheap & Hdocs & _). split.
    + by rewrite Hdocs.
    + by rewrite Hdocs, Hheap, Hh.
  - destruct Hpath as ((quests & time & n & meta & _ & Hheap & _) & Hdocs & _).
    rewrite Forall_forall in Hlen. split.
    + rewrite Hdocs, map_app. apply NoDup_app. split; [exact Hnd |]. split.
      * intros l Hl Hnew. apply list_elem_of_fmap in Hl as (d & -> & Hd).
        apply list_elem_of_singleton in Hnew.
        unfold synthesized_document in Hnew. cbn [metadata] in Hnew.
        specialize (Hlen d Hd). lia.
      * apply NoDup_singleton.
    + rewrite Hdocs, Hheap, length_app, Hh. cbn [length].
      apply Forall_app. split.
      * apply Forall_forall. intros d Hd. specialize (Hlen d Hd). lia.
      * repeat constructor. unfold synthesized_document. cbn [metadata]. lia.
Qed.

Lemma request_extends_index feedback w :
  mock_documents w `prefix_of`
    mock_documents (snd (SmartQuestSystem.process_user_feedback shipped feedback w)).
Proof.
  destruct (shipped_request feedback w) as (reuse & res & w' & _ & -> & _ & Hpath).
  cbn [snd]. destruct reuse.
  - destruct Hpath as (_ & _ & _ & -> & _). reflexivity.
  - destruct Hpath as (_ & -> & _). by apply prefix_app_r.
Qed.

Lemma reachable_own_metadata w : reachable w -> own_metadata w.
Proof.
  intros Hreach. induction Hreach as [clk | w feedback Hreach IH].
  - apply initial_own_metadata.
  - by apply request_keeps_own_metadata.
Qed.

Lemma reachable_keeps_seeds w : reachable w -> seed_documents `prefix_of` mock_documents w.
Proof.
  intros Hreach. induction Hreach as [clk | w feedback Hreach IH].
  - reflexivity.
  - etransitivity; [exact IH | apply request_extends_index].
Qed.

(** X5: a request to the shipped system, in any world, only adds: the
    documents indexed before are still the first of the index, no
    identifier leaves the store, the dicts that existed keep every entry
    other than [similarity_score], and the clock has been read once or
    three times. *)
Theorem X5_requests_only_add :
  forall feedback w,
  exists res w',
    SmartQuestSystem.process_user_feedback shipped feedback w = (Return res, w') /\
    mock_documents w `prefix_of` mock_documents w' /\
    dom (mock_storage w) ⊆ dom (mock_storage w') /\
    length (heap w) <= length (heap w') /\
    (forall l key,
        l < length (heap w) -> key ≠ "similarity_score" ->
        deref (heap w') l !! key = deref (heap w) l !! key) /\
    clock w' = clock w /\
    (ticks w' = S (ticks w) \/ ticks w' = S (S (S (ticks w)))).
Proof.
  intros feedback w.
  pose proof (request_extends_index feedback w) as Hprefix.
  destruct (shipped_request feedback w) as (reuse & res & w' & _ & Hrun & Hclock & Hpath).
  rewrite Hrun in Hprefix. cbn [snd] in Hprefix.
  exists res, w'. split; [exact Hrun |]. split; [exact Hprefix |].
  assert (length (heap (searched (fb_content feedback) w)) = length (heap w)) as Hlen.
  { unfold searched. cbn [heap with_heap]. apply length_foldl_annotate. }
  assert (forall l key, key ≠ "similarity_score" ->
            deref (heap (searched (fb_content feedback) w)) l !! key
            = deref (heap w) l !! key) as Hkeys.
  { intros l key Hkey. unfold searched. cbn [heap with_heap].
    by apply foldl_annotate_other_key. }
  destruct reuse.
  - destruct Hpath as (_ & _ & Hheap & _ & Hstore & Hticks).
    rewrite Hstore, Hheap, Hlen. split; [done |]. split; [done |].
    split; [intros l key _ Hkey; by apply Hkeys |]. split; [exact Hclock | by left].
  - destruct Hpath as ((quests & time & n & meta & _ & Hheap & _) & _ & Hstore & Hticks).
    rewrite Hstore, Hheap, length_app, Hlen. split; [| split; [lia |]].
    + rewrite dom_insert. apply union_subseteq_r.
    + split; [| split; [exact Hclock | by right]].
      intros l key Hl Hkey. rewrite deref_app_l by lia. by apply Hkeys.
Qed.

Lemma request_counts feedback w :
  length (heap w) = length (mock_documents w) ->
  size (mock_storage w) + 3 <= length (mock_documents w) ->
  length (heap (snd (SmartQuestSystem.process_user_feedback shipped feedback w)))
    = length (mock_documents (snd (SmartQuestSystem.process_user_feedback shipped feedback w))) /\
  size (mock_storage (snd (SmartQuestSystem.process_user_feedback shipped feedback w))) + 3
    <= length (mock_documents (snd (SmartQuestSystem.process_user_feedback shipped feedback w))).
Proof.
  intros Hheap Hsize.
  destruct (shipped_request feedback w) as (reuse & res & w' & _ & -> & _ & Hpath).
  cbn [snd].
  assert (length (heap (searched (fb_content feedback) w)) = length (heap w)) as Hh.
  { unfold searched. cbn [heap with_heap]. apply length_foldl_annotate. }
  destruct reuse.
  - destruct Hpath as (_ & _ & -> & -> & -> & _). by rewrite Hh.
  - destruct Hpath as ((quests & time & n & meta & _ & -> & _) & -> & -> & _).
    rewrite !length_app, Hh. cbn [length]. split; [lia |].
    rewrite map_size_insert. destruct (mock_storage w !! _); cbn; lia.
Qed.

Lemma reachable_counts w :
  reachable w ->
  length (heap w) = length (mock_documents w) /\
  size (mock_storage w) + 3 <= length (mock_documents w).
Proof.
  intros Hreach. induction Hreach as [clk | w feedback Hreach [IHh IHs]].
  - split; [reflexivity |]. cbn. rewrite map_size_empty. lia.
  - by apply request_counts.
Qed.

(** X6: in every world the shipped system reaches, the three seeded
    documents are still the first three of the index; every indexed
    document refers to a metadata dict that exists and that no other
    indexed document refers to, and the heap holds no other dict; the
    store holds at most as many items as documents were added to the
    index. *)
Theorem X6_reachable_index_shape :
  forall w,
    reachable w ->
    seed_documents `prefix_of` mock_documents w /\
    map document_id seed_documents
      = ["health_neck_001"; "finance_budget_001"; "skincare_acne_001"] /\
    own_metadata w /\
    length (heap w) = length (mock_documents w) /\
    size (mock_storage w) + 3 <= length (mock_documents w).
Proof.
  intros w Hreach. split; [by apply reachable_keeps_seeds |].
  split; [reflexivity |]. split; [by apply reachable_own_metadata |].
  by apply reachable_counts.
Qed.

Lemma X6_reachable_index_shape_witness :
  seed_documents `prefix_of` mock_documents world_after_one_synthesis /\
  map document_id seed_documents
    = ["health_neck_001"; "finance_budget_001"; "skincare_acne_001"] /\
  own_metadata world_after_one_synthesis /\
  length (heap world_after_one_synthesis) = length (mock_documents world_after_one_synthesis) /\
  size (mock_storage world_after_one_synthesis) + 3
    <= length (mock_documents world_after_one_synthesis).
Proof.
  exact (X6_reachable_index_shape world_after_one_synthesis
           (reachable_process _ _ (reachable_initial sample_clock))).
Defined.

Lemma X4_search_scores_are_own_witness :
  exists found w',
    OpenSearchClient.find_similar_documents "목 통증" 0.7 5 (initial_world sample_clock)
      = (Return found, w') /\
    Forall (fun d => annotation w' d = Py.Float (score "목 통증" d)) found /\
    StronglySorted (descending (score "목 통증")) found /\
    own_metadata w'.
Proof.
  exact (X4_search_scores_are_own "목 통증" 0.7 5 (initial_world sample_clock)
           (initial_own_metadata sample_clock)).
Defined.

(** ** The path a request takes, by the keywords of the feedback *)

(** The content side of the similarity function on a constant body. *)
Ltac eval_content body :=
  repeat match goal with
         | |- context [Py.str_in ?k (Py.lower body)] =>
             let b := eval vm_compute in (Py.str_in k (Py.lower body)) in
             replace (Py.str_in k (Py.lower body)) with b by (vm_compute; reflexivity)
         end.

Ltac case_query query :=
  repeat match goal with
         | |- context [Py.str_in ?k (Py.lower query)] =>
             destruct (Py.str_in k (Py.lower query))
         end.

Lemma score_of_neck query :
  OpenSearchClient._calculate_mock_similarity query OpenSearchClient.neck_content =
    if mentions "목" query then 0.9%Q
    else if mentions "통증" query then 0.85%Q
    else if mentions "운동" query then 0.8%Q
    else 0.3%Q.
Proof.
  unfold OpenSearchClient._calculate_mock_similarity, mentions.
  eval_content OpenSearchClient.neck_content. case_query query; reflexivity.
Qed.

Lemma score_of_budget query :
  OpenSearchClient._calculate_mock_similarity query OpenSearchClient.budget_content =
    if mentions "예산" query then 0.9%Q
    else if mentions "돈" query then 0.85%Q
    else 0.3%Q.
Proof.
  unfold OpenSearchClient._calculate_mock_similarity, mentions.
  eval_content OpenSearchClient.budget_content. case_query query; reflexivity.
Qed.

Lemma score_of_acne query :
  OpenSearchClient._calculate_mock_similarity query OpenSearchClient.acne_content =
    if mentions "피부" query then 0.9%Q
    else if mentions "여드름" query then 0.95%Q
    else 0.3%Q.
Proof.
  unfold OpenSearchClient._calculate_mock_similarity, mentions.
  eval_content OpenSearchClient.acne_content. case_query query; reflexivity.
Qed.

Lemma seed_documents_contents :
  exists neck budget acne,
    seed_documents = [neck; budget; acne] /\
    content neck = OpenSearchClient.neck_content /\
    content budget = OpenSearchClient.budget_content /\
    content acne = OpenSearchClient.acne_content.
Proof. do 3 eexists. repeat split; reflexivity. Qed.

(** A query that mentions a strong keyword scores 0.85 or more against a
    seeded document. *)
Lemma strong_keyword_seed query :
  Py.any_in strong_keywords (Py.lower query) = true ->
  exists seed, seed ∈ seed_documents /\ Qle_bool 0.85 (score query seed) = true.
Proof.
  unfold Py.any_in, strong_keywords. cbn [existsb]. intros Hany.
  destruct seed_documents_contents as (neck & budget & acne & -> & Hneck & Hbudget & Hacne).
  fold (mentions "목" query) (mentions "통증" query) (mentions "예산" query)
       (mentions "돈" query) (mentions "피부" query) (mentions "여드름" query) in Hany.
  destruct (mentions "목" query) eqn:H1.
  { exists neck. split; [by left |]. unfold score. by rewrite Hneck, score_of_neck, H1. }
  destruct (mentions "통증" query) eqn:H2.
  { exists neck. split; [by left |]. unfold score. by rewrite Hneck, score_of_neck, H1, H2. }
  destruct (mentions "예산" query) eqn:H3.
  { exists budget. split; [right; by left |]. unfold score.
    by rewrite Hbudget, score_of_budget, H3. }
  destruct (mentions "돈" query) eqn:H4.
  { exists budget. split; [right; by left |]. unfold score.
    by rewrite Hbudget, score_of_budget, H3, H4. }
  destruct (mentions "피부" query) eqn:H5.
  { exists acne. split; [do 2 right; by left |]. unfold score.
    by rewrite Hacne, score_of_acne, H5. }
  destruct (mentions "여드름" query) eqn:H6; [| discriminate].
  exists acne. split; [do 2 right; by left |]. unfold score.
  by rewrite Hacne, score_of_acne, H5, H6.
Qed.

(** Without aliasing, the first document returned is a candidate of the
    greatest score, and carries that score. *)
Lemma top_candidate query w d :
  own_metadata w -> d ∈ candidates query 0.7 w ->
  exists best rest,
    found_for query w = best :: rest /\
    best ∈ candidates query 0.7 w /\
    annotation (searched query w) best = Py.Float (score query best) /\
    (score query d <= score query best)%Q.
Proof.
  intros Hown Hd. unfold found_for.
  set (key := OpenSearchClient.sort_key (heap (searched query w))).
  pose proof (sort_desc_perm key (candidates query 0.7 w)) as Hperm.
  pose proof (sort_desc_StronglySorted key (candidates query 0.7 w)) as Hsorted.
  assert (forall x, x ∈ candidates query 0.7 w ->
            deref (heap (searched query w)) (metadata x) !! "similarity_score"
            = Some (Py.Float (score query x))) as Hexact.
  { intros x Hx. unfold searched. cbn [heap with_heap]. by apply annotation_exact. }
  assert (forall x, x ∈ candidates query 0.7 w -> key x = score query x) as Hkey.
  { intros x Hx. unfold key, OpenSearchClient.sort_key, dict_get. by rewrite (Hexact x Hx). }
  destruct (OpenSearchClient.sort_desc key (candidates query 0.7 w)) as [| best rest].
  { rewrite <- Hperm in Hd. by apply elem_of_nil in Hd. }
  assert (best ∈ candidates query 0.7 w) as Hbest by (rewrite <- Hperm; by left).
  exists best, (take 4 rest). split; [reflexivity |]. split; [exact Hbest |]. split.
  - unfold annotation, dict_get. by rewrite (Hexact best Hbest).
  - rewrite <- (Hkey d Hd), <- (Hkey best Hbest).
    rewrite <- Hperm in Hd. apply elem_of_cons in Hd as [-> | Hd]; [apply Qle_refl |].
    apply StronglySorted_inv in Hsorted as [_ Hall].
    rewrite Forall_forall in Hall. by apply Hall.
Qed.

Lemma prefix_of_elem {A} (l1 l2 : list A) x : l1 `prefix_of` l2 -> x ∈ l1 -> x ∈ l2.
Proof. intros [k ->] Hx. apply elem_of_app. by left. Qed.

(** The request of a feedback that mentions a strong keyword, in a world
    that holds the seeds without aliasing. *)
Lemma strong_keyword_reuses feedback w :
  own_metadata w -> seed_documents `prefix_of` mock_documents w ->
  Py.any_in strong_keywords (Py.lower (fb_content feedback)) = true ->
  exists res w',
    SmartQuestSystem.process_user_feedback shipped feedback w = (Return res, w') /\
    method res = Some "existing_documents" /\
    mock_documents w' = mock_documents w /\
    mock_storage w' = mock_storage w.
Proof.
  intros Hown Hseeds Hstrong.
  destruct (strong_keyword_seed _ Hstrong) as (seed & Hseed & Hscore).
  assert (seed ∈ candidates (fb_content feedback) 0.7 w) as Hcand.
  { apply list_elem_of_filter. split; [| by eapply prefix_of_elem].
    unfold passes. fold (score (fb_content feedback) seed).
    apply Qle_bool_iff. apply Qle_bool_iff in Hscore.
    eapply Qle_trans; [| exact Hscore]. done. }
  destruct (top_candidate _ _ _ Hown Hcand) as (best & rest & Hfound & _ & Hann & Hle).
  destruct (shipped_request feedback w) as (reuse & res & w' & Heval & Hrun & _ & Hpath).
  rewrite Hfound in Heval.
  rewrite (evaluate_similarity_number best rest feedback _ (score (fb_content feedback) best))
    in Heval by (by rewrite Hann).
  assert (Qle_bool 0.85 (score (fb_content feedback) best) = true) as Htop.
  { apply Qle_bool_iff. apply Qle_bool_iff in Hscore. by eapply Qle_trans. }
  rewrite Htop in Heval. injection Heval as <-.
  destruct Hpath as ((quests & time & ->) & _ & _ & Hdocs & Hstore & _).
  do 2 eexists. split; [exact Hrun |]. by repeat split.
Qed.

(** X7: in every world the shipped system reaches, a feedback that
    mentions one of 목, 통증, 예산, 돈, 피부, 여드름 is answered from the
    existing documents: the index and the store are left as they were. *)
Theorem X7_strong_keyword_always_reuses :
  forall feedback w,
    reachable w ->
    Py.any_in strong_keywords (Py.lower (fb_content feedback)) = true ->
    exists res w',
      SmartQuestSystem.process_user_feedback shipped feedback w = (Return res, w') /\
      method res = Some "existing_documents" /\
      mock_documents w' = mock_documents w /\
      mock_storage w' = mock_storage w.
Proof.
  intros feedback w Hreach Hstrong.
  apply strong_keyword_reuses; [| | exact Hstrong].
  - by apply reachable_own_metadata.
  - by apply reachable_keeps_seeds.
Qed.

Lemma X7_strong_keyword_always_reuses_witness :
  exists res w',
    SmartQuestSystem.process_user_feedback shipped (feedback_of "돈 모으는 법")
      world_after_one_synthesis = (Return res, w') /\
    method res = Some "existing_documents" /\
    mock_documents w' = mock_documents world_after_one_synthesis /\
    mock_storage w' = mock_storage world_after_one_synthesis.
Proof.
  apply (X7_strong_keyword_always_reuses (feedback_of "돈 모으는 법")
           world_after_one_synthesis).
  - exact (reachable_process _ _ (reachable_initial sample_clock)).
  - vm_compute. reflexivity.
Defined.

(** A query without any keyword scores 0.3 against every body. *)
Lemma keyword_free_score query body :
  Py.any_in similarity_keywords (Py.lower query) = false ->
  OpenSearchClient._calculate_mock_similarity query body = 0.3%Q.
Proof.
  unfold Py.any_in, similarity_keywords. cbn [existsb]. intros Hnone.
  repeat (apply orb_false_elim in Hnone as [? Hnone]).
  unfold OpenSearchClient._calculate_mock_similarity.
  repeat match goal with
         | H : Py.str_in _ (Py.lower query) = false |- _ => rewrite H; clear H
         end.
  reflexivity.
Qed.

Lemma no_candidates query threshold w :
  (forall d, d ∈ mock_documents w -> passes query threshold d = false) ->
  candidates query threshold w = [].
Proof.
  unfold candidates. induction (mock_documents w) as [| d rest IH]; intros Hnone;
    [reflexivity |].
  rewrite filter_cons_False.
  - apply IH. intros d' Hd'. apply Hnone. by right.
  - rewrite (Hnone d) by (by left). discriminate.
Qed.

(** X8: a feedback that mentions none of 목, 통증, 운동, 예산, 돈, 피부,
    여드름 finds no candidate in any index, whatever it holds: each such
    request to the shipped system synthesizes, persists and indexes one
    more document, also when the same feedback was served before. *)
Theorem X8_keyword_free_always_synthesizes :
  forall feedback w,
    Py.any_in similarity_keywords (Py.lower (fb_content feedback)) = false ->
    OpenSearchClient.find_similar_documents (fb_content feedback) 0.7 5 w
      = (Return [], searched (fb_content feedback) w) /\
    exists res doc w',
      SmartQuestSystem.process_user_feedback shipped feedback w = (Return res, w') /\
      method res = Some "new_expert_document" /\
      result_expert_document res = Some doc /\
      mock_documents w' = (mock_documents w ++ [doc])%list /\
      mock_storage w' = <[document_id doc := doc]> (mock_storage w).
Proof.
  intros feedback w Hfree.
  assert (found_for (fb_content feedback) w = []) as Hfound.
  { unfold found_for. rewrite no_candidates; [reflexivity |].
    intros d _. unfold passes. by rewrite keyword_free_score. }
  split; [by rewrite find_shipped, Hfound |].
  destruct (shipped_request feedback w) as (reuse & res & w' & Heval & Hrun & _ & Hpath).
  rewrite Hfound in Heval. injection Heval as <-.
  destruct Hpath as ((quests & time & n & meta & -> & _) & Hdocs & Hstore & _).
  do 3 eexists. split; [exact Hrun |]. by repeat split.
Qed.

Lemma X8_keyword_free_always_synthesizes_witness :
  OpenSearchClient.find_similar_documents (fb_content (feedback_of "주식 투자 방법")) 0.7 5
    world_after_one_synthesis
    = (Return [], searched (fb_content (feedback_of "주식 투자 방법")) world_after_one_synthesis) /\
  exists res doc w',
    SmartQuestSystem.process_user_feedback shipped (feedback_of "주식 투자 방법")
      world_after_one_synthesis = (Return res, w') /\
    method res = Some "new_expert_document" /\
    result_expert_document res = Some doc /\
    mock_documents w' = (mock_documents world_after_one_synthesis ++ [doc])%list /\
    mock_storage w' = <[document_id doc := doc]> (mock_storage world_after_one_synthesis).
Proof.
  apply (X8_keyword_free_always_synthesizes (feedback_of "주식 투자 방법")
           world_after_one_synthesis).
  vm_compute. reflexivity.
Defined.

(** The scores of a query that mentions 운동 and no strong keyword. *)
Lemma exercise_only_score query body :
  mentions "운동" query = true ->
  Py.any_in strong_keywords (Py.lower query) = false ->
  OpenSearchClient._calculate_mock_similarity query body =
    if mentions "운동" body || mentions "스트레칭" body then 0.8%Q else 0.3%Q.
Proof.
  unfold Py.any_in, strong_keywords, mentions. cbn [existsb]. intros Hex Hnone.
  repeat (apply orb_false_elim in Hnone as [? Hnone]).
  unfold OpenSearchClient._calculate_mock_similarity. rewrite Hex.
  repeat match goal with
         | H : Py.str_in _ (Py.lower query) = false |- _ => rewrite H; clear H
         end.
  cbn [andb]. by destruct (_ || _).
Qed.

(** The request of a feedback that mentions 운동 and no strong keyword, in
    a world that holds the seeds without aliasing: reuse exactly when two
    indexed documents mention 운동 or 스트레칭. *)
Lemma exercise_only_request feedback w :
  own_metadata w -> seed_documents `prefix_of` mock_documents w ->
  mentions "운동" (fb_content feedback) = true ->
  Py.any_in strong_keywords (Py.lower (fb_content feedback)) = false ->
  exists res w',
    SmartQuestSystem.process_user_feedback shipped feedback w = (Return res, w') /\
    1 <= length (candidates (fb_content feedback) 0.7 w) /\
    if (2 <=? length (candidates (fb_content feedback) 0.7 w))%nat
    then method res = Some "existing_documents" /\
         mock_documents w' = mock_documents w
    else method res = Some "new_expert_document" /\
         mock_documents w' =
           (mock_documents w ++
              [synthesized_document feedback (searched (fb_content feedback) w)])%list.
Proof.
  intros Hown Hseeds Hex Hnone. set (query := fb_content feedback) in *.
  destruct seed_documents_contents as (neck & budget & acne & Hs & Hneck & _).
  assert (neck ∈ candidates query 0.7 w) as Hcand.
  { apply list_elem_of_filter. split.
    - unfold passes. rewrite Hneck, (exercise_only_score _ _ Hex Hnone). reflexivity.
    - eapply prefix_of_elem; [exact Hseeds |]. rewrite Hs. by left. }
  destruct (top_candidate _ _ _ Hown Hcand) as (best & rest & Hfound & Hbest & Hann & _).
  assert (score query best = 0.8%Q) as Hscore.
  { apply list_elem_of_filter in Hbest as [Hp _]. unfold passes in Hp.
    unfold score. rewrite (exercise_only_score _ _ Hex Hnone) in Hp |- *.
    by destruct (_ || _). }
  assert (length (found_for query w) = length (candidates query 0.7 w) `min` 5) as Hlen.
  { unfold found_for. rewrite length_take.
    rewrite (Permutation_length (sort_desc_perm _ _)). lia. }
  destruct (shipped_request feedback w) as (reuse & res & w' & Heval & Hrun & _ & Hpath).
  fold query in Heval, Hpath.
  assert (reuse = (2 <=? length (candidates query 0.7 w))%nat) as ->.
  { rewrite Hfound in Heval, Hlen.
    rewrite (evaluate_similarity_number best rest feedback _ (score query best)) in Heval
      by (by rewrite Hann).
    rewrite Hscore in Heval.
    change (Qle_bool 0.85 0.8) with false in Heval.
    change (Qle_bool 0.70 0.8) with true in Heval.
    assert ((2 <=? length (best :: rest))%nat = (2 <=? length (candidates query 0.7 w))%nat)
      as Hcount.
    { rewrite Hlen.
      destruct (2 <=? length (candidates query 0.7 w))%nat eqn:H2.
      - apply Nat.leb_le in H2. apply Nat.leb_le. lia.
      - apply Nat.leb_gt in H2. apply Nat.leb_gt. lia. }
    rewrite Hcount in Heval. by injection Heval as <-. }
  exists res, w'. split; [exact Hrun |].
  split; [apply list_elem_of_lookup_1 in Hcand as [i Hi]; apply lookup_lt_Some in Hi; lia |].
  destruct (2 <=? length (candidates query 0.7 w))%nat.
  - destruct Hpath as ((quests & time & ->) & _ & _ & Hdocs & _). by split.
  - destruct Hpath as ((quests & time & n & meta & -> & _) & Hdocs & _). by split.
Qed.

(** X9: in every world the shipped system reaches, a feedback that
    mentions 운동 and no strong keyword scores 0.8 at best, against the
    documents that mention 운동 or 스트레칭 (the seeded neck-pain document is
    one): the request reuses exactly when there are two such documents, and
    synthesizes one more document otherwise. *)
Theorem X9_exercise_feedback_needs_two :
  forall feedback w,
    reachable w ->
    mentions "운동" (fb_content feedback) = true ->
    Py.any_in strong_keywords (Py.lower (fb_content feedback)) = false ->
    exists res w',
      SmartQuestSystem.process_user_feedback shipped feedback w = (Return res, w') /\
      1 <= length (candidates (fb_content feedback) 0.7 w) /\
      method res =
        Some (if (2 <=? length (candidates (fb_content feedback) 0.7 w))%nat
              then "existing_documents" else "new_expert_document") /\
      Forall (fun d => score (fb_content feedback) d = 0.8%Q)
        (candidates (fb_content feedback) 0.7 w).
Proof.
  intros feedback w Hreach Hex Hnone.
  destruct (exercise_only_request feedback w) as (res & w' & Hrun & Hone & Hpath);
    [by apply reachable_own_metadata | by apply reachable_keeps_seeds | done | done |].
  exists res, w'. split; [exact Hrun |]. split; [exact Hone |]. split.
  - destruct (2 <=? _)%nat; by destruct Hpath as [-> _].
  - apply Forall_forall. intros d Hd. apply list_elem_of_filter in Hd as [Hp _].
    unfold passes in Hp. unfold score.
    rewrite (exercise_only_score _ _ Hex Hnone) in Hp |- *. by destruct (_ || _).
Qed.

Lemma X9_exercise_feedback_needs_two_witness :
  exists res w',
    SmartQuestSystem.process_user_feedback shipped (feedback_of "운동 루틴 추천")
      (initial_world sample_clock) = (Return res, w') /\
    1 <= length (candidates (fb_content (feedback_of "운동 루틴 추천")) 0.7
                   (initial_world sample_clock)) /\
    method res =
      Some (if (2 <=? length (candidates (fb_content (feedback_of "운동 루틴 추천")) 0.7
                                (initial_world sample_clock)))%nat
            then "existing_documents" else "new_expert_document") /\
    Forall (fun d => score (fb_content (feedback_of "운동 루틴 추천")) d = 0.8%Q)
      (candidates (fb_content (feedback_of "운동 루틴 추천")) 0.7 (initial_world sample_clock)).
Proof.
  apply (X9_exercise_feedback_needs_two (feedback_of "운동 루틴 추천")
           (initial_world sample_clock)).
  - exact (reachable_initial sample_clock).
  - vm_compute. reflexivity.
  - vm_compute. reflexivity.
Defined.

Lemma mentions_join k sep parts part :
  part ∈ parts -> mentions k part = true -> mentions k (Py.join sep parts) = true.
Proof.
  unfold mentions. intros Hin Hk.
  induction parts as [| p rest IH]; [by apply elem_of_nil in Hin |].
  apply elem_of_cons in Hin as [-> | Hin].
  - destruct rest as [| p' rest']; [exact Hk |].
    cbn [Py.join]. rewrite lower_app. by apply str_in_app_l.
  - destruct rest as [| p' rest']; [by apply elem_of_nil in Hin |].
    cbn [Py.join]. rewrite !lower_app. apply str_in_app_r, str_in_app_r. by apply IH.
Qed.

(** A keyword the feedback mentions is mentioned by the synthesized body. *)
Lemma synthesized_mentions k feedback w :
  mentions k (fb_content feedback) = true ->
  mentions k (content (synthesized_document feedback w)) = true.
Proof.
  intros Hk. unfold synthesized_document. cbn [content].
  unfold StrandsAgentSystem._generate_mock_expert_content.
  apply mentions_join with (part := fb_content feedback); [| exact Hk].
  do 3 (apply elem_of_cons; right). apply elem_of_cons. by left.
Qed.

Lemma exercise_is_mentioned query :
  Py.any_in similarity_keywords (Py.lower query) = true ->
  Py.any_in strong_keywords (Py.lower query) = false ->
  mentions "운동" query = true.
Proof.
  unfold Py.any_in, similarity_keywords, strong_keywords, mentions. cbn [existsb].
  intros Hany Hnone. repeat (apply orb_false_elim in Hnone as [? Hnone]).
  repeat match goal with
         | H : Py.str_in _ (Py.lower query) = false |- _ => rewrite H in Hany; clear H
         end.
  cbn [orb] in Hany. by rewrite orb_false_r in Hany.
Qed.

(** X10: in every world the shipped system reaches, a feedback that
    mentions any keyword of the similarity function is answered from the
    existing documents at the latest when it is sent a second time: the
    document synthesized for it the first time holds its text. *)
Theorem X10_second_request_reuses :
  forall feedback w,
    reachable w ->
    Py.any_in similarity_keywords (Py.lower (fb_content feedback)) = true ->
    exists res1 w1 res2 w2,
      SmartQuestSystem.process_user_feedback shipped feedback w = (Return res1, w1) /\
      SmartQuestSystem.process_user_feedback shipped feedback w1 = (Return res2, w2) /\
      method res2 = Some "existing_documents" /\
      mock_documents w2 = mock_documents w1.
Proof.
  intros feedback w Hreach Hany. set (query := fb_content feedback) in *.
  pose proof (reachable_own_metadata w Hreach) as Hown.
  pose proof (reachable_keeps_seeds w Hreach) as Hseeds.
  pose proof (reachable_process w feedback Hreach) as Hreach1.
  pose proof (reachable_own_metadata _ Hreach1) as Hown1.
  pose proof (reachable_keeps_seeds _ Hreach1) as Hseeds1.
  destruct (Py.any_in strong_keywords (Py.lower query)) eqn:Hstrong.
  - destruct (shipped_request feedback w) as (_ & res1 & w1 & _ & Hrun1 & _).
    rewrite Hrun1 in Hown1, Hseeds1. cbn [snd] in Hown1, Hseeds1.
    destruct (strong_keyword_reuses feedback w1 Hown1 Hseeds1 Hstrong)
      as (res2 & w2 & Hrun2 & Hm & Hdocs & _).
    by exists res1, w1, res2, w2.
  - pose proof (exercise_is_mentioned _ Hany Hstrong) as Hex.
    destruct (exercise_only_request feedback w Hown Hseeds Hex Hstrong)
      as (res1 & w1 & Hrun1 & Hone & Hpath1).
    rewrite Hrun1 in Hown1, Hseeds1. cbn [snd] in Hown1, Hseeds1.
    destruct (exercise_only_request feedback w1 Hown1 Hseeds1 Hex Hstrong)
      as (res2 & w2 & Hrun2 & _ & Hpath2).
    assert (2 <= length (candidates query 0.7 w1)) as Htwo.
    { fold query in Hpath1, Hone. unfold candidates in *.
      destruct (2 <=? _)%nat eqn:H2.
      - destruct Hpath1 as [_ ->]. by apply Nat.leb_le in H2.
      - destruct Hpath1 as [_ ->]. rewrite filter_app, length_app.
        rewrite filter_cons_True.
        + cbn [length]. lia.
        + unfold passes. rewrite (exercise_only_score _ _ Hex Hstrong).
          by rewrite (synthesized_mentions "운동" feedback _ Hex). }
    fold query in Hpath2. apply Nat.leb_le in Htwo. rewrite Htwo in Hpath2.
    destruct Hpath2 as [Hm Hdocs]. by exists res1, w1, res2, w2.
Qed.

Lemma X10_second_request_reuses_witness :
  exists res1 w1 res2 w2,
    SmartQuestSystem.process_user_feedback shipped (feedback_of "운동 루틴 추천")
      (initial_world sample_clock) = (Return res1, w1) /\
    SmartQuestSystem.process_user_feedback shipped (feedback_of "운동 루틴 추천") w1
      = (Return res2, w2) /\
    method res2 = Some "existing_documents" /\
    mock_documents w2 = mock_documents w1.
Proof.
  apply (X10_second_request_reuses (feedback_of "운동 루틴 추천")
           (initial_world sample_clock)).
  - exact (reachable_initial sample_clock).
  - vm_compute. reflexivity.
Defined.

(** ** The two classifiers, where they agree *)

(** X11: the orchestrator's classifier and the synthesizer's classifier
    give the same category to every text that mentions none of the six
    keywords only the orchestrator has (몸, 주식, 펀드, 세안, 로션, 크림). *)
Theorem X11_classifiers_agree_without_extra_keywords :
  forall text,
    Py.any_in orchestrator_only_keywords (Py.lower text) = false ->
    SmartQuestSystem._determine_category text = StrandsAgentSystem._determine_category text.
Proof.
  intros text. unfold Py.any_in, orchestrator_only_keywords. cbn [existsb]. intros Hnone.
  repeat (apply orb_false_elim in Hnone as [? Hnone]).
  unfold SmartQuestSystem._determine_category, StrandsAgentSystem._determine_category,
    Py.any_in.
  cbn [existsb].
  repeat match goal with
         | H : Py.str_in _ (Py.lower text) = false |- _ => rewrite H; clear H
         end.
  cbn [orb]. reflexivity.
Qed.

Lemma X11_classifiers_agree_without_extra_keywords_witness :
  SmartQuestSystem._determine_category "여드름 피부 관리"
  = StrandsAgentSystem._determine_category "여드름 피부 관리".
Proof.
  apply X11_classifiers_agree_without_extra_keywords. vm_compute. reflexivity.
Defined.

(** ** Identifiers that collide *)

Lemma keyword_free_request feedback w :
  Py.any_in similarity_keywords (Py.lower (fb_content feedback)) = false ->
  exists quests time n meta w',
    SmartQuestSystem.process_user_feedback shipped feedback w =
      (Return (NewExpertDocument
                 (document_id (synthesized_document feedback w))
                 (synthesized_document feedback w) quests time n), w') /\
    heap w' = (heap w ++ [meta])%list /\
    mock_documents w' = (mock_documents w ++ [synthesized_document feedback w])%list /\
    mock_storage w' =
      <[document_id (synthesized_document feedback w) := synthesized_document feedback w]>
        (mock_storage w) /\
    clock w' = clock w /\
    ticks w' = S (S (S (ticks w))).
Proof.
  intros Hfree.
  assert (candidates (fb_content feedback) 0.7 w = []) as Hnone.
  { apply no_candidates. intros d _. unfold passes. by rewrite keyword_free_score. }
  assert (found_for (fb_content feedback) w = []) as Hfound.
  { unfold found_for. by rewrite Hnone. }
  assert (heap (searched (fb_content feedback) w) = heap w) as Hheap.
  { unfold searched. by rewrite Hnone. }
  assert (synthesized_document feedback (searched (fb_content feedback) w)
          = synthesized_document feedback w) as Hdoc.
  { unfold synthesized_document. by rewrite Hheap. }
  destruct (shipped_request feedback w) as (reuse & res & w' & Heval & Hrun & Hclock & Hpath).
  rewrite Hfound in Heval. injection Heval as <-.
  destruct Hpath as ((quests & time & n & meta & -> & Hh & _) & Hdocs & Hstore & Hticks).
  rewrite Hdoc in *. rewrite Hheap in Hh.
  by exists quests, time, n, meta, w'.
Qed.

(** X12: the identifier of a synthesized document is its category and the
    second of the clock.  Two keyword-free feedbacks of the same category
    that are served within one second get the same identifier: the index
    holds both documents, the store only the second, which has replaced
    the first. *)
Theorem X12_identifier_collision_overwrites :
  forall feedback1 feedback2 w,
    Py.any_in similarity_keywords (Py.lower (fb_content feedback1)) = false ->
    Py.any_in similarity_keywords (Py.lower (fb_content feedback2)) = false ->
    StrandsAgentSystem._determine_category (fb_content feedback1)
      = StrandsAgentSystem._determine_category (fb_content feedback2) ->
    Py.strftime_compact (clock w (ticks w))
      = Py.strftime_compact (clock w (S (S (S (ticks w))))) ->
    exists res1 doc1 w1 res2 doc2 w2,
      SmartQuestSystem.process_user_feedback shipped feedback1 w = (Return res1, w1) /\
      result_expert_document res1 = Some doc1 /\
      SmartQuestSystem.process_user_feedback shipped feedback2 w1 = (Return res2, w2) /\
      result_expert_document res2 = Some doc2 /\
      document_id doc1 = document_id doc2 /\
      metadata doc1 ≠ metadata doc2 /\
      mock_documents w2 = (mock_documents w ++ [doc1; doc2])%list /\
      mock_storage w2 = <[document_id doc2 := doc2]> (mock_storage w).
Proof.
  intros feedback1 feedback2 w Hfree1 Hfree2 Hcat Hstamp.
  destruct (keyword_free_request feedback1 w Hfree1)
    as (quests1 & time1 & n1 & meta1 & w1 & Hrun1 & Hheap1 & Hdocs1 & Hstore1 & Hclock1 & Hticks1).
  destruct (keyword_free_request feedback2 w1 Hfree2)
    as (quests2 & time2 & n2 & meta2 & w2 & Hrun2 & Hheap2 & Hdocs2 & Hstore2 & Hclock2 & Hticks2).
  assert (document_id (synthesized_document feedback1 w)
          = document_id (synthesized_document feedback2 w1)) as Hid.
  { unfold synthesized_document. cbn [document_id].
    by rewrite Hclock1, Hticks1, <- Hstamp, Hcat. }
  do 6 eexists.
  split; [exact Hrun1 |]. split; [reflexivity |].
  split; [exact Hrun2 |]. split; [reflexivity |].
  split; [exact Hid |]. split.
  - unfold synthesized_document. cbn [metadata]. rewrite Hheap1, length_app. cbn. lia.
  - split.
    + by rewrite Hdocs2, Hdocs1, <- app_assoc.
    + rewrite Hstore2, Hstore1, Hid. apply insert_insert_eq.
Qed.

Lemma X12_identifier_collision_overwrites_witness :
  exists res1 doc1 w1 res2 doc2 w2,
    SmartQuestSystem.process_user_feedback shipped (feedback_of "잠이 안 와요")
      (initial_world frozen_clock) = (Return res1, w1) /\
    result_expert_document res1 = Some doc1 /\
    SmartQuestSystem.process_user_feedback shipped (feedback_of "물을 자주 마시고 싶어요") w1
      = (Return res2, w2) /\
    result_expert_document res2 = Some doc2 /\
    document_id doc1 = document_id doc2 /\
    metadata doc1 ≠ metadata doc2 /\
    mock_documents w2 = (mock_documents (initial_world frozen_clock) ++ [doc1; doc2])%list /\
    mock_storage w2 = <[document_id doc2 := doc2]> (mock_storage (initial_world frozen_clock)).
Proof.
  apply (X12_identifier_collision_overwrites (feedback_of "잠이 안 와요")
           (feedback_of "물을 자주 마시고 싶어요") (initial_world frozen_clock));
    vm_compute; reflexivity.
Defined.

(** ** What a reuse result reports *)

Lemma found_for_facts query w :
  own_metadata w ->
  length (found_for query w) <= 5 /\
  Forall (fun d => d ∈ mock_documents w /\ Qle_bool 0.7 (score query d) = true)
    (found_for query w) /\
  reported_scores (searched query w) (found_for query w)
    = map (fun d => Py.Float (score query d)) (found_for query w) /\
  StronglySorted (descending (score query)) (found_for query w).
Proof.
  intros Hown. unfold found_for.
  set (key := OpenSearchClient.sort_key (heap (searched query w))).
  assert (forall d, d ∈ candidates query 0.7 w ->
            deref (heap (searched query w)) (metadata d) !! "similarity_score"
            = Some (Py.Float (score query d))) as Hexact.
  { intros d Hd. unfold searched. cbn [heap with_heap]. by apply annotation_exact. }
  assert (forall d, d ∈ take 5 (OpenSearchClient.sort_desc key (candidates query 0.7 w)) ->
                    d ∈ candidates query 0.7 w) as Hsub.
  { intros d Hd. apply elem_of_take in Hd as (i & Hd & _).
    apply list_elem_of_lookup_2 in Hd. by rewrite sort_desc_perm in Hd. }
  split; [rewrite length_take; lia |]. split; [| split].
  - apply Forall_forall. intros d Hd. apply Hsub, list_elem_of_filter in Hd as [Hp Hd].
    by split.
  - unfold reported_scores. apply map_ext_in. intros d Hd.
    apply list_elem_of_In in Hd. unfold dict_get. by rewrite (Hexact d (Hsub d Hd)).
  - eapply StronglySorted_change;
      [| apply take_StronglySorted, (sort_desc_StronglySorted key)].
    intros a b Ha Hb. unfold descending, key, OpenSearchClient.sort_key, dict_get.
    by rewrite (Hexact a (Hsub a Ha)), (Hexact b (Hsub b Hb)).
Qed.

(** X13: in every world the shipped system reaches, a result tagged
    [existing_documents] reports as many used documents as it lists scores,
    between one and five; the scores are the similarities of indexed
    documents to the feedback, each at least 0.7, in descending order, and
    the first is at least 0.85 unless there are two of them. *)
Theorem X13_reuse_result_scores :
  forall feedback w n quests time scores w',
    reachable w ->
    SmartQuestSystem.process_user_feedback shipped feedback w
      = (Return (ExistingDocuments n quests time scores), w') ->
    exists best rest,
      n = length (best :: rest) /\ n <= 5 /\
      scores = map (fun d => Py.Float (score (fb_content feedback) d)) (best :: rest) /\
      Forall (fun d => d ∈ mock_documents w /\
                       Qle_bool 0.7 (score (fb_content feedback) d) = true) (best :: rest) /\
      StronglySorted (descending (score (fb_content feedback))) (best :: rest) /\
      (Qle_bool 0.85 (score (fb_content feedback) best) = true \/ 2 <= n).
Proof.
  intros feedback w n quests time scores w' Hreach Hrun.
  pose proof (reachable_own_metadata w Hreach) as Hown.
  destruct (found_for_facts (fb_content feedback) w Hown) as (Hlen & Hall & Hscores & Hsorted).
  destruct (shipped_request feedback w) as (reuse & res & w'' & Heval & Hrun' & _ & Hpath).
  rewrite Hrun in Hrun'. injection Hrun' as <- <-.
  destruct reuse; [| by destruct Hpath as ((? & ? & ? & ? & ? & _) & _)].
  destruct Hpath as ((quests' & time' & [= -> _ _ ->]) & Hne & _).
  destruct (found_for (fb_content feedback) w) as [| best rest] eqn:Hfound; [done |].
  exists best, rest. split; [reflexivity |]. split; [exact Hlen |].
  split; [exact Hscores |]. split; [exact Hall |]. split; [exact Hsorted |].
  assert (annotation (searched (fb_content feedback) w) best
          = Py.Float (score (fb_content feedback) best)) as Hann.
  { injection Hscores as Hbest _. unfold annotation, dict_get in *.
    destruct (deref _ _ !! "similarity_score") as [v |]; cbn in *; [exact Hbest | discriminate]. }
  rewrite (evaluate_similarity_number best rest feedback _
             (score (fb_content feedback) best)) in Heval by (by rewrite Hann).
  destruct (Qle_bool 0.85 _); [by left |].
  destruct (Qle_bool 0.70 _); [| discriminate].
  injection Heval as Hn. right. destruct rest; [discriminate | cbn [length]; lia].
Qed.

Lemma X13_reuse_result_scores_witness :
  exists best rest,
    1 = length (best :: rest) /\ 1 <= 5 /\
    [Py.Float 0.9] =
      map (fun d => Py.Float (score (fb_content (feedback_of "목이 아파요")) d)) (best :: rest) /\
    Forall (fun d => d ∈ mock_documents (initial_world sample_clock) /\
                     Qle_bool 0.7 (score (fb_content (feedback_of "목이 아파요")) d) = true)
      (best :: rest) /\
    StronglySorted (descending (score (fb_content (feedback_of "목이 아파요")))) (best :: rest) /\
    (Qle_bool 0.85 (score (fb_content (feedback_of "목이 아파요")) best) = true \/ 2 <= 1).
Proof.
  eapply (X13_reuse_result_scores (feedback_of "목이 아파요") (initial_world sample_clock)).
  - exact (reachable_initial sample_clock).
  - vm_compute. reflexivity.
Defined.

(** ** The orchestrator over any collaborators *)

(** The synthesize path returns either its own kind of result or the
    fallback result. *)
Lemma create_new_kind self feedback w res w' :
  SmartQuestSystem._create_new_expert_document_and_quest self feedback w = (Return res, w') ->
  method res ≠ Some "existing_documents".
Proof.
  unfold SmartQuestSystem._create_new_expert_document_and_quest, try_except.
  match goal with |- context [match ?body w with _ => _ end] =>
    destruct (body w) as [[res0 | e] w0] eqn:Hbody end.
  - intros [= <- <-]. revert Hbody. repeat (step_bind; [| discriminate]).
    unfold ret. by intros [= <- _].
  - unfold ret. by intros [= <- _].
Qed.

(** What the evaluation requires to answer reuse. *)
Lemma evaluate_true docs feedback w w' :
  SmartQuestSystem._evaluate_similarity docs feedback w = (Return true, w') ->
  exists best rest s,
    docs = best :: rest /\ Py.as_number (annotation w best) = inr s /\ (0.70 <= s)%Q /\
    (Qle_bool 0.85 s = true \/ 2 <= length docs).
Proof.
  destruct docs as [| best rest]; [discriminate |].
  unfold SmartQuestSystem._evaluate_similarity, bind, get_heap.
  fold (annotation w best).
  destruct (Py.as_number (annotation w best)) as [e | s] eqn:Hs; [discriminate |].
  intros Heval. exists best, rest, s. split; [reflexivity |]. split; [exact Hs |].
  destruct (Qle_bool 0.85 s) eqn:H85.
  - split; [| by left]. apply Qle_bool_iff in H85.
    eapply Qle_trans; [| exact H85]. done.
  - destruct (Qle_bool 0.70 s) eqn:H70; [| discriminate]. split; [by apply Qle_bool_iff |].
    right. injection Heval as Hn _. destruct rest; [discriminate | cbn [length]; lia].
Qed.

(** X14: whatever the collaborators are, a result tagged
    [existing_documents] is returned only by a ready system whose search
    returned at least one document, the first of them with a numeric score
    of at least 0.70 (and of at least 0.85 unless two were returned); the
    number of documents it reports is the number the search returned. *)
Theorem X14_reuse_needs_a_candidate :
  forall self feedback w n quests time scores w',
    SmartQuestSystem.process_user_feedback self feedback w
      = (Return (ExistingDocuments n quests time scores), w') ->
    system_ready self = true /\
    exists docs w1 best rest s,
      find_similar_documents (opensearch_client self) (fb_content feedback) 0.7 5 w
        = (Return docs, w1) /\
      docs = best :: rest /\
      n = length docs /\
      Py.as_number (annotation w1 best) = inr s /\
      (0.70 <= s)%Q /\
      (Qle_bool 0.85 s = true \/ 2 <= n).
Proof.
  intros self feedback w n quests time scores w' Hrun.
  unfold SmartQuestSystem.process_user_feedback in Hrun.
  destruct (system_ready self); [| discriminate]. cbn [negb] in Hrun.
  split; [reflexivity |].
  unfold try_except at 1 in Hrun. unfold bind at 1 in Hrun.
  destruct (find_similar_documents _ _ _ _ w) as [[docs | e] w1]; [| discriminate].
  unfold bind at 1 in Hrun.
  destruct (SmartQuestSystem._evaluate_similarity docs feedback w1)
    as [[reuse | e] w2] eqn:Heval; [| discriminate].
  destruct reuse.
  - destruct (evaluate_true _ _ _ _ Heval) as (best & rest & s & Hdocs & Hs & H70 & Hgate).
    assert (n = length docs) as Hn.
    { revert Hrun. unfold SmartQuestSystem._generate_quest_from_existing, try_except at 1.
      unfold bind at 1.
      destruct (generate_from_documents _ docs feedback w2) as [[qs | e] w3].
      - unfold bind, datetime_now, get_heap, ret. by intros [= -> _ _ _ _].
      - destruct (SmartQuestSystem._create_new_expert_document_and_quest self feedback w3)
          as [[res | e'] w4] eqn:Hnew; [| discriminate].
        intros [= -> _]. by destruct (create_new_kind _ _ _ _ _ Hnew). }
    exists docs, w1, best, rest, s. rewrite <- Hn in Hgate. by repeat split.
  - destruct (SmartQuestSystem._create_new_expert_document_and_quest self feedback w2)
      as [[res | e'] w4] eqn:Hnew; [| discriminate].
    injection Hrun as -> _. by destruct (create_new_kind _ _ _ _ _ Hnew).
Qed.

Lemma X14_reuse_needs_a_candidate_witness :
  system_ready shipped = true /\
  exists docs w1 best rest s,
    find_similar_documents (opensearch_client shipped)
      (fb_content (feedback_of "목이 아파요")) 0.7 5 (initial_world sample_clock)
      = (Return docs, w1) /\
    docs = best :: rest /\
    1 = length docs /\
    Py.as_number (annotation w1 best) = inr s /\
    (0.70 <= s)%Q /\
    (Qle_bool 0.85 s = true \/ 2 <= 1).
Proof.
  eapply (X14_reuse_needs_a_candidate shipped (feedback_of "목이 아파요")
            (initial_world sample_clock)).
  vm_compute. reflexivity.
Defined.

(** X15: whatever the collaborators are, on a ready system whose search
    returned a non-empty list: a first document without a
    [similarity_score] in its metadata counts as scoring 0.0, and the
    request takes the synthesize path; so does a first document whose score
    the [.3f] format accepts (a float, a bool, or an int that fits a
    double) and that is below 0.70; a first document whose score is a
    string, or an int too large for a double whatever its sign, makes the
    request return the failure result with the message of the format error
    and the fallback quest. *)
Theorem X15_missing_or_invalid_score :
  forall self feedback w best rest w1,
    system_ready self = true ->
    find_similar_documents (opensearch_client self) (fb_content feedback) 0.7 5 w
      = (Return (best :: rest), w1) ->
    (deref (heap w1) (metadata best) !! "similarity_score" = None ->
     SmartQuestSystem.process_user_feedback self feedback w =
       SmartQuestSystem._create_new_expert_document_and_quest self feedback w1) /\
    (forall s,
        Py.as_number (annotation w1 best) = inr s -> (s < 0.70)%Q ->
        SmartQuestSystem.process_user_feedback self feedback w =
          SmartQuestSystem._create_new_expert_document_and_quest self feedback w1) /\
    (forall text,
        deref (heap w1) (metadata best) !! "similarity_score" = Some (Py.Str text) ->
        SmartQuestSystem.process_user_feedback self feedback w =
          (Return (Failure "Unknown format code 'f' for object of type 'str'"
                     (Some (SmartQuestSystem._create_fallback_quest feedback))), w1)) /\
    (forall z,
        deref (heap w1) (metadata best) !! "similarity_score" = Some (Py.Int z) ->
        (Py.float_overflow <= Z.abs z)%Z ->
        SmartQuestSystem.process_user_feedback self feedback w =
          (Return (Failure "int too large to convert to float"
                     (Some (SmartQuestSystem._create_fallback_quest feedback))), w1)).
Proof.
  intros self feedback w best rest w1 Hready Hfind.
  assert (forall s,
            Py.as_number (annotation w1 best) = inr s -> (s < 0.70)%Q ->
            SmartQuestSystem.process_user_feedback self feedback w =
              SmartQuestSystem._create_new_expert_document_and_quest self feedback w1) as Hlow.
  { intros s Hs Hlt.
    rewrite (process_ready self feedback w _ w1 false w1 Hready Hfind); [reflexivity |].
    rewrite (evaluate_similarity_number best rest feedback w1 s Hs).
    assert (Qle_bool 0.70 s = false) as ->.
    { destruct (Qle_bool 0.70 s) eqn:H70; [| reflexivity].
      apply Qle_bool_iff in H70. by destruct (Qlt_not_le _ _ Hlt). }
    assert (Qle_bool 0.85 s = false) as ->; [| reflexivity].
    destruct (Qle_bool 0.85 s) eqn:H85; [| reflexivity].
    apply Qle_bool_iff in H85. destruct (Qlt_not_le _ _ Hlt).
    eapply Qle_trans; [| exact H85]. done. }
  split; [| split; [exact Hlow | split]].
  - intros Hnone. apply (Hlow 0.0%Q); [| done].
    unfold annotation, dict_get. by rewrite Hnone.
  - intros text Htext.
    unfold SmartQuestSystem.process_user_feedback. rewrite Hready. cbn [negb].
    unfold try_except at 1. unfold bind at 1. rewrite Hfind.
    unfold bind at 1, SmartQuestSystem._evaluate_similarity, bind, get_heap, dict_get.
    by rewrite Htext.
  - intros z Hz Hbig.
    unfold SmartQuestSystem.process_user_feedback. rewrite Hready. cbn [negb].
    unfold try_except at 1. unfold bind at 1. rewrite Hfind.
    unfold bind at 1, SmartQuestSystem._evaluate_similarity, bind, get_heap, dict_get.
    rewrite Hz. cbn [default from_option id Py.as_number].
    by rewrite (proj2 (Z.ltb_ge (Z.abs z) Py.float_overflow) Hbig).
Qed.

Lemma X15_missing_or_invalid_score_witness :
  exists best rest w1,
    find_similar_documents unscored_opensearch (fb_content (feedback_of "목이 아파요")) 0.7 5
      (initial_world sample_clock) = (Return (best :: rest), w1) /\
    deref (heap w1) (metadata best) !! "similarity_score" = None /\
    SmartQuestSystem.process_user_feedback
      (with_opensearch_client unscored_opensearch shipped) (feedback_of "목이 아파요")
      (initial_world sample_clock) =
    SmartQuestSystem._create_new_expert_document_and_quest
      (with_opensearch_client unscored_opensearch shipped) (feedback_of "목이 아파요") w1.
Proof.
  do 3 eexists. split; [reflexivity |]. split; [reflexivity |].
  refine (proj1 (X15_missing_or_invalid_score
                   (with_opensearch_client unscored_opensearch shipped)
                   (feedback_of "목이 아파요") (initial_world sample_clock) _ _ _
                   eq_refl eq_refl) eq_refl).
Defined.

(** X16: whatever the retriever, the synthesizer and the store are, when
    they return and the reindexing then raises, the request ends with the
    failure result, the message of that exception and the fallback quest,
    in the world the failed reindexing left: what the store wrote is not
    withdrawn. *)
Theorem X16_failed_reindex_is_not_undone :
  forall self feedback w sources w1 doc w2 id w3 e w4,
    search_trusted_sources (kendra_client self) (fb_content feedback)
      (SmartQuestSystem._determine_category (fb_content feedback)) w = (Return sources, w1) ->
    create_expert_document (agent_system self) feedback sources w1 = (Return doc, w2) ->
    save_expert_document (dynamodb_client self) doc w2 = (Return id, w3) ->
    index_document (opensearch_client self) doc w3 = (Raise e, w4) ->
    SmartQuestSystem._create_new_expert_document_and_quest self feedback w =
      (Return (Failure (Py.message e)
                 (Some (SmartQuestSystem._create_fallback_quest feedback))), w4).
Proof.
  intros self feedback w sources w1 doc w2 id w3 e w4 Hsrc Hdoc Hsave Hindex.
  unfold SmartQuestSystem._create_new_expert_document_and_quest, try_except.
  unfold bind at 1. rewrite Hsrc. unfold bind at 1. rewrite Hdoc.
  unfold bind at 1. rewrite Hsave. unfold bind at 1. rewrite Hindex. reflexivity.
Qed.

Lemma X16_failed_reindex_is_not_undone_witness :
  exists w4,
    SmartQuestSystem._create_new_expert_document_and_quest
      (with_opensearch_client read_only_opensearch shipped) (feedback_of "hello")
      (initial_world sample_clock) =
    (Return (Failure "index is read-only"
               (Some (SmartQuestSystem._create_fallback_quest (feedback_of "hello")))), w4) /\
    map fst (map_to_list (mock_storage w4)) = ["health_20241214_103000"] /\
    map document_id (mock_documents w4)
      = ["health_neck_001"; "finance_budget_001"; "skincare_acne_001"].
Proof.
  eexists. split.
  - eapply (X16_failed_reindex_is_not_undone
              (with_opensearch_client read_only_opensearch shipped) (feedback_of "hello")
              (initial_world sample_clock) _ _ _ _ _ _
              (Py.Exception "index is read-only")); reflexivity.
  - split; vm_compute; reflexivity.
Defined.

(** ** What a synthesize result reports *)

Lemma shipped_synthesize_result feedback w :
  exists w',
    SmartQuestSystem._create_new_expert_document_and_quest shipped feedback w =
      (Return (NewExpertDocument
                 (document_id (synthesized_document feedback w))
                 (synthesized_document feedback w)
                 (RAGQuestGenerator._generate_mock_quests
                    (topic (synthesized_document feedback w)) (fb_content feedback))
                 (Py.isoformat (clock w (S (S (ticks w)))))
                 (length (default [] (KendraClient.mock_sources
                            !! SmartQuestSystem._determine_category (fb_content feedback))))),
       w').
Proof. eexists. reflexivity. Qed.

Lemma known_category_two_sources category :
  known_category category = true ->
  length (default [] (KendraClient.mock_sources !! category)) = 2.
Proof.
  unfold known_category. intros H. apply bool_decide_eq_true in H.
  repeat (apply elem_of_cons in H as [-> | H]); [| | | by apply elem_of_nil in H];
    vm_compute; reflexivity.
Qed.

(** X17: what a result tagged [new_expert_document] of the shipped system
    holds: the identifier is that of the document, made of its category
    and the first clock reading of the request; the document is tagged by
    the synthesizer's classifier, has quality 0.94 and no score in its
    metadata; two trusted sources and three quests are reported; the
    document is the last of the index and is stored under its
    identifier. *)
Theorem X17_synthesize_result :
  forall feedback w id doc quests time n w',
    SmartQuestSystem.process_user_feedback shipped feedback w
      = (Return (NewExpertDocument id doc quests time n), w') ->
    id = document_id doc /\
    document_id doc = topic doc +:+ "_" +:+ Py.strftime_compact (clock w (ticks w)) /\
    topic doc = StrandsAgentSystem._determine_category (fb_content feedback) /\
    (quality_score doc == 0.94)%Q /\
    created_at doc = Py.isoformat (clock w (S (ticks w))) /\
    time = Py.isoformat (clock w (S (S (ticks w)))) /\
    n = 2 /\
    length quests = 3 /\
    deref (heap w') (metadata doc) !! "similarity_score" = None /\
    last (mock_documents w') = Some doc /\
    mock_storage w' !! id = Some doc.
Proof.
  intros feedback w id doc quests time n w' Hrun.
  destruct (shipped_request feedback w) as (reuse & res & w'' & Heval & Hrun' & _ & Hpath).
  pose proof Hrun' as Hrun2.
  rewrite Hrun in Hrun'. injection Hrun' as <- <-.
  destruct reuse; [by destruct Hpath as ((? & ? & ?) & _) |].
  destruct Hpath as ((quests' & time' & n' & meta & Hres & Hheap & Hmeta) & Hdocs & Hstore & _).
  rewrite (process_ready shipped feedback w _ _ false _ eq_refl
             (find_shipped (fb_content feedback) w) Heval) in Hrun.
  destruct (shipped_synthesize_result feedback (searched (fb_content feedback) w))
    as (w3 & Hsyn).
  assert (length (RAGQuestGenerator._generate_mock_quests
                    (topic (synthesized_document feedback (searched (fb_content feedback) w)))
                    (fb_content feedback)) = 3) as Hthree.
  { destruct (known_category_three_quests
                (topic (synthesized_document feedback (searched (fb_content feedback) w)))
                (fb_content feedback)) as (q1 & q2 & q3 & -> & _); [| reflexivity].
    apply synthesizer_category_known. }
  assert (length (default [] (KendraClient.mock_sources
                    !! SmartQuestSystem._determine_category (fb_content feedback))) = 2)
    as Htwo by apply known_category_two_sources, orchestrator_category_known.
  rewrite Hsyn in Hrun. injection Hrun as <- <- <- <- <- _.
  split; [reflexivity |]. split; [reflexivity |]. split; [reflexivity |].
  split; [reflexivity |]. split; [reflexivity |]. split; [reflexivity |].
  split; [exact Htwo |]. split; [exact Hthree |].
  split.
  { rewrite Hheap. unfold deref, synthesized_document. cbn [metadata].
    rewrite lookup_app_r by lia. rewrite Nat.sub_diag. cbn. exact Hmeta. }
  split; [rewrite Hdocs; apply last_snoc |].
  rewrite Hstore. apply lookup_insert_eq.
Qed.

Lemma X17_synthesize_result_witness :
  exists doc w',
    "finance_20241214_103000" = document_id doc /\
    document_id doc = topic doc +:+ "_" +:+
      Py.strftime_compact (clock (initial_world sample_clock)
                             (ticks (initial_world sample_clock))) /\
    topic doc = StrandsAgentSystem._determine_category (fb_content (feedback_of "주식 투자 방법")) /\
    (quality_score doc == 0.94)%Q /\
    created_at doc = Py.isoformat (clock (initial_world sample_clock)
                                     (S (ticks (initial_world sample_clock)))) /\
    "2024-12-14T10:30:02" = Py.isoformat (clock (initial_world sample_clock)
                                            (S (S (ticks (initial_world sample_clock))))) /\
    2 = 2 /\
    length (RAGQuestGenerator._generate_mock_quests "finance" "주식 투자 방법") = 3 /\
    deref (heap w') (metadata doc) !! "similarity_score" = None /\
    last (mock_documents w') = Some doc /\
    mock_storage w' !! "finance_20241214_103000" = Some doc.
Proof.
  do 2 eexists.
  eapply (X17_synthesize_result (feedback_of "주식 투자 방법") (initial_world sample_clock)).
  vm_compute. reflexivity.
Defined.

(** ** The similarity function *)

(** X18: the similarity of a query to a body lies between 0.3 and 0.95,
    and is 0.3 unless the query mentions one of 목, 통증, 운동, 예산, 돈,
    피부, 여드름 and the body one of 목, 통증, 운동, 스트레칭, 예산, 재정, 피부,
    여드름: texts that share no topic are never similar, and identical
    texts are not similar either when they mention no keyword. *)
Theorem X18_similarity_needs_keywords :
  forall query body,
    (0.3 <= OpenSearchClient._calculate_mock_similarity query body)%Q /\
    (OpenSearchClient._calculate_mock_similarity query body <= 0.95)%Q /\
    (Py.any_in similarity_keywords (Py.lower query) = false \/
     Py.any_in body_keywords (Py.lower body) = false ->
     OpenSearchClient._calculate_mock_similarity query body = 0.3%Q).
Proof.
  intros query body.
  pose proof (similarity_values query body) as Hv.
  split; [| split].
  - revert Hv. generalize (OpenSearchClient._calculate_mock_similarity query body).
    intros s Hs. repeat (apply elem_of_cons in Hs as [-> | Hs]); [done .. |].
    by apply elem_of_nil in Hs.
  - revert Hv. generalize (OpenSearchClient._calculate_mock_similarity query body).
    intros s Hs. repeat (apply elem_of_cons in Hs as [-> | Hs]); [done .. |].
    by apply elem_of_nil in Hs.
  - intros [Hq | Hb]; [by apply keyword_free_score |].
    revert Hb. unfold Py.any_in, body_keywords. cbn [existsb]. intros Hnone.
    repeat (apply orb_false_elim in Hnone as [? Hnone]).
    unfold OpenSearchClient._calculate_mock_similarity.
    repeat match goal with
           | H : Py.str_in _ (Py.lower body) = false |- _ => rewrite H; clear H
           end.
    cbn [orb]. rewrite !andb_false_r. reflexivity.
Qed.

(** ** Seeded identifiers are never persisted *)

Lemma pretty_N_char_digit x : is_digit (pretty_N_char x) = true.
Proof. unfold pretty_N_char. repeat case_match; reflexivity. Qed.

Lemma pretty_N_go_head_digit x s :
  (0 < x)%N \/ head_digit s = true -> head_digit (pretty_N_go x s) = true.
Proof.
  revert s. induction (N.lt_wf_0 x) as [x _ IH]. intros s Hx.
  destruct (decide (x = 0)%N) as [-> | Hne].
  - rewrite pretty_N_go_0. destruct Hx as [Hx | Hs]; [lia | exact Hs].
  - rewrite pretty_N_go_step by lia. apply IH.
    + apply N.div_lt; lia.
    + right. apply pretty_N_char_digit.
Qed.

(** The decimal text of a number starts with a digit. *)
Lemma pretty_nat_head_digit (n : nat) : head_digit (pretty n) = true.
Proof.
  unfold pretty, pretty_nat, pretty, pretty_N.
  case_decide; [reflexivity |]. apply pretty_N_go_head_digit. left. lia.
Qed.

Lemma head_digit_app a b : head_digit a = true -> head_digit (a +:+ b) = true.
Proof. destruct a; [discriminate | done]. Qed.

(** The time stamp of an identifier starts with a digit of the year. *)
Lemma strftime_compact_head_digit dt : head_digit (Py.strftime_compact dt) = true.
Proof. unfold Py.strftime_compact. apply head_digit_app, pretty_nat_head_digit. Qed.

(** An identifier made of a category of the synthesizer, an underscore and
    a text that starts with a digit is none of the seeded identifiers. *)
Lemma stamped_id_not_seed text stamp :
  head_digit stamp = true ->
  StrandsAgentSystem._determine_category text +:+ "_" +:+ stamp ∉ seed_ids.
Proof.
  intros Hd. destruct stamp as [| c rest]; [discriminate |]. cbn [head_digit] in Hd.
  unfold seed_ids, StrandsAgentSystem._determine_category.
  rewrite !elem_of_union, !elem_of_singleton.
  repeat match goal with
         | |- context [if ?b then _ else _] => destruct b
         end;
    intros [[H | H] | H]; vm_compute in H; simplify_eq; by vm_compute in Hd.
Qed.

Lemma synthesized_id_not_seed feedback w :
  document_id (synthesized_document feedback w) ∉ seed_ids.
Proof.
  unfold synthesized_document. cbn [document_id].
  apply stamped_id_not_seed, strftime_compact_head_digit.
Qed.

Lemma reachable_seeds_not_stored w :
  reachable w -> forall id, id ∈ seed_ids -> mock_storage w !! id = None.
Proof.
  induction 1 as [clk | w feedback Hreach IH]; intros id Hid.
  - apply lookup_empty.
  - destruct (shipped_request feedback w) as (reuse & res & w' & _ & Hrun & _ & Hcases).
    rewrite Hrun. cbn [snd]. destruct reuse.
    + destruct Hcases as (_ & _ & _ & _ & -> & _). by apply IH.
    + destruct Hcases as (_ & _ & -> & _). rewrite lookup_insert_ne; [by apply IH |].
      intros <-. by apply (synthesized_id_not_seed feedback (searched (fb_content feedback) w)).
Qed.

(** C7 (amended): in every world the shipped system reaches, the
    identifiers held by the index are the three seeded identifiers together
    with the identifiers persisted in the store; no seeded identifier is
    persisted, the seeded documents being indexed without being persisted
    from the initial state on; and every item of the store is an indexed
    document stored under its own identifier. *)
Theorem C7_index_is_seeds_and_store :
  forall w,
    reachable w ->
    index_ids w = seed_ids ∪ dom (mock_storage w) /\
    (forall id, id ∈ seed_ids -> id ∈ index_ids w /\ id ∉ dom (mock_storage w)) /\
    seed_documents `prefix_of` mock_documents w /\
    (forall id item,
        mock_storage w !! id = Some item ->
        document_id item = id /\ item ∈ mock_documents w).
Proof.
  intros w Hreach. destruct (reachable_index_ids w Hreach) as [Hids Hitems].
  split; [exact Hids |]. split; [| split; [by apply reachable_keeps_seeds | exact Hitems]].
  intros id Hid. split.
  - rewrite Hids. apply elem_of_union. by left.
  - apply not_elem_of_dom. by apply reachable_seeds_not_stored.
Qed.

Lemma C7_index_is_seeds_and_store_witness :
  index_ids world_after_one_synthesis
  = seed_ids ∪ dom (mock_storage world_after_one_synthesis) /\
  (forall id, id ∈ seed_ids ->
     id ∈ index_ids world_after_one_synthesis /\
     id ∉ dom (mock_storage world_after_one_synthesis)).
Proof.
  pose proof (C7_index_is_seeds_and_store world_after_one_synthesis
                (reachable_process _ _ (reachable_initial sample_clock)))
    as (Hids & Hseeds & _).
  exact (conj Hids Hseeds).
Defined.

(** ** The formats of the clock readings and of the score *)

Example zfill_pads_to_width :
  Py.zfill 6 "8" = "000008" /\ Py.zfill 2 "123" = "123" /\ Py.zfill 4 "" = "0000".
Proof. repeat split; vm_compute; reflexivity. Qed.

Example isoformat_pads_microseconds :
  Py.isoformat (Py.DateTime 2024 1 2 3 4 5 8) = "2024-01-02T03:04:05.000008" /\
  Py.isoformat (Py.DateTime 2024 12 14 10 30 0 0) = "2024-12-14T10:30:00" /\
  Py.isoformat (Py.DateTime 987 11 2 3 4 5 4210) = "0987-11-02T03:04:05.004210".
Proof. repeat split; vm_compute; reflexivity. Qed.

Example strftime_compact_prints_year_as_is :
  Py.strftime_compact (Py.DateTime 2024 12 14 10 30 0 0) = "20241214_103000" /\
  Py.strftime_compact (Py.DateTime 987 11 2 3 4 5 4210) = "9871102_030405".
Proof. repeat split; vm_compute; reflexivity. Qed.

Example as_number_int_range :
  Py.as_number (Py.Int (Py.float_overflow - 1)) = inr (inject_Z (Py.float_overflow - 1)) /\
  Py.as_number (Py.Int Py.float_overflow)
  = inl (Py.Exception "int too large to convert to float") /\
  Py.as_number (Py.Int (- Py.float_overflow))
  = inl (Py.Exception "int too large to convert to float").
Proof. repeat split; vm_compute; reflexivity. Qed.
